(** * Exercise Tracker: the request handlers of [index.js]

    A shallow embedding of the four Express handlers of [index.js]
    ([POST /api/users], [GET /api/users], [POST /api/users/:_id/exercises],
    [GET /api/users/:_id/logs]) together with the parts of the JavaScript
    runtime and of the Mongoose models they call, followed by the properties
    of the handlers.

    Conventions.
    - A JavaScript string is a [string]; its characters are read as the code
      units U+0000 .. U+00FF.
    - A time value (the number inside a [Date]) is a [Z], in milliseconds
      since the epoch; [None] stands for [NaN], the invalid date.
    - The number returned by [parseInt] is given by its mathematical value
      (the Number is the double nearest to it); [None] stands for [NaN]. *)

From Stdlib Require Import ZArith List String Ascii Bool Lia.
From Stdlib Require Import Sorting.Sorted Sorting.Permutation.
From Stdlib Require Import DecimalString.
From Stdlib Require Import DecimalPos.
Import ListNotations.

Local Open Scope string_scope.
Local Open Scope list_scope.
Local Open Scope Z_scope.

(** ** JavaScript values, as they reach the handlers

    [req.body] is produced by [express.json()] or [express.urlencoded()],
    [req.query] by the query-string parser: a field is absent
    ([JUndefined]) or holds JSON data.  [JNum n] is the Number whose value
    is the integer [n] (within the safe range, where its string form is the
    decimal notation of [n]).  An array or a plain object is kept as
    [JObj prim], where [prim] is the outcome of its conversion to a
    primitive: [Some s] when the conversion gives the string [s], [None]
    when it throws (own [toString]/[valueOf] entries that are not
    functions). *)

Inductive JsValue : Type :=
| JUndefined
| JNull
| JBool (b : bool)
| JNum (n : Z)
| JStr (s : string)
| JObj (prim : option string).

(** What a rejected promise or a thrown exception carries. *)
Inductive Exn : Type :=
| TypeError         (* thrown by the JavaScript runtime *)
| CastError         (* Mongoose: the id is not an ObjectId *)
| ValidationError   (* Mongoose: a required path is missing *)
| StoreFailure.     (* the database call was rejected *)

(** A computation of the runtime that may throw. *)
Definition Completion (A : Type) : Type := Exn + A.

Definition ToBoolean (v : JsValue) : bool :=
  match v with
  | JUndefined | JNull => false
  | JBool b => b
  | JNum n => negb (n =? 0)
  | JStr s => negb (s =? "")%string
  | JObj _ => true
  end.

Definition Z_toString (n : Z) : string :=
  NilZero.string_of_int (Z.to_int n).

Definition ToString (v : JsValue) : Completion string :=
  match v with
  | JUndefined => inr "undefined"
  | JNull => inr "null"
  | JBool true => inr "true"
  | JBool false => inr "false"
  | JNum n => inr (Z_toString n)
  | JStr s => inr s
  | JObj (Some s) => inr s
  | JObj None => inl TypeError
  end.

(** *** White space, [String.prototype.trim], [parseInt] *)

(** WhiteSpace and LineTerminator code units below U+0100:
    TAB, LF, VT, FF, CR, SP, NBSP. *)
Definition isStrWhiteSpaceChar (c : ascii) : bool :=
  let n := Z.of_N (N_of_ascii c) in
  ((9 <=? n) && (n <=? 13)) || (n =? 32) || (n =? 160).

Fixpoint trimStart (s : string) : string :=
  match s with
  | EmptyString => EmptyString
  | String c r => if isStrWhiteSpaceChar c then trimStart r else s
  end.

Fixpoint trimEnd (s : string) : string :=
  match s with
  | EmptyString => EmptyString
  | String c r =>
      match trimEnd r with
      | EmptyString => if isStrWhiteSpaceChar c then EmptyString
                       else String c EmptyString
      | r' => String c r'
      end
  end.

Definition trim (s : string) : string := trimEnd (trimStart s).

(** [v.trim()]: only a string has the method; on anything else the call
    throws ([undefined] is not a function, or a property of
    [undefined]/[null] is read). *)
Definition call_trim (v : JsValue) : Completion string :=
  match v with
  | JStr s => inr (trim s)
  | _ => inl TypeError
  end.

Definition digitValue (c : ascii) : option Z :=
  let n := Z.of_N (N_of_ascii c) in
  if (48 <=? n) && (n <=? 57) then Some (n - 48) else None.

(** The value of the longest prefix of decimal digits. *)
Fixpoint parseDigits (s : string) (acc : Z) : Z :=
  match s with
  | EmptyString => acc
  | String c r =>
      match digitValue c with
      | Some d => parseDigits r (10 * acc + d)
      | None => acc
      end
  end.

(** [parseInt(s, 10)] on a string: skip leading white space, read a sign,
    read the longest prefix of decimal digits; [NaN] when there is none.
    With radix 10 no [0x] prefix is stripped. *)
Definition signOf (s1 : string) : Z * string :=
  match s1 with
  | String "-"%char r => (-1, r)
  | String "+"%char r => (1, r)
  | _ => (1, s1)
  end.

Definition parseInt10 (s : string) : option Z :=
  let (sign, s2) := signOf (trimStart s) in
  match s2 with
  | EmptyString => None
  | String c _ =>
      match digitValue c with
      | Some _ => Some (sign * parseDigits s2 0)
      | None => None
      end
  end.

(** [parseInt(v, 10)]: the argument is first converted with [ToString]. *)
Definition parseInt (v : JsValue) : Completion (option Z) :=
  match ToString v with
  | inl e => inl e
  | inr s => inr (parseInt10 s)
  end.

(** [Number.isNaN] *)
Definition Number_isNaN (x : option Z) : bool :=
  match x with None => true | Some _ => false end.

(** ** Dates: the day and year arithmetic of ECMAScript *)

Definition msPerDay : Z := 86400000.

Definition Day (t : Z) : Z := t / msPerDay.

Definition WeekDay (t : Z) : Z := (Day t + 4) mod 7.

Definition DaysInYear (y : Z) : Z :=
  if negb (y mod 4 =? 0) then 365
  else if negb (y mod 100 =? 0) then 366
  else if negb (y mod 400 =? 0) then 365
  else 366.

Definition DayFromYear (y : Z) : Z :=
  365 * (y - 1970) + (y - 1969) / 4 - (y - 1901) / 100 + (y - 1601) / 400.

(** The year of a day number: the largest [y] with [DayFromYear y <= d].
    The estimate from the mean length of a year is off by at most one. *)
Definition YearFromDay (d : Z) : Z :=
  let y := 1970 + (400 * d) / 146097 in
  if d <? DayFromYear y then y - 1
  else if DayFromYear (y + 1) <=? d then y + 1
  else y.

Definition YearFromTime (t : Z) : Z := YearFromDay (Day t).

Definition InLeapYear (t : Z) : Z :=
  if DaysInYear (YearFromTime t) =? 366 then 1 else 0.

Definition DayWithinYear (t : Z) : Z := Day t - DayFromYear (YearFromTime t).

(** First day within the year of month [m] (0 = January); [leap] is 0 or 1. *)
Definition monthStart (m leap : Z) : Z :=
  match m with
  | 0 => 0
  | 1 => 31
  | 2 => 59 + leap
  | 3 => 90 + leap
  | 4 => 120 + leap
  | 5 => 151 + leap
  | 6 => 181 + leap
  | 7 => 212 + leap
  | 8 => 243 + leap
  | 9 => 273 + leap
  | 10 => 304 + leap
  | 11 => 334 + leap
  | _ => 365 + leap
  end.

Definition MonthFromTime (t : Z) : Z :=
  let d := DayWithinYear t in
  let l := InLeapYear t in
  if d <? monthStart 1 l then 0
  else if d <? monthStart 2 l then 1
  else if d <? monthStart 3 l then 2
  else if d <? monthStart 4 l then 3
  else if d <? monthStart 5 l then 4
  else if d <? monthStart 6 l then 5
  else if d <? monthStart 7 l then 6
  else if d <? monthStart 8 l then 7
  else if d <? monthStart 9 l then 8
  else if d <? monthStart 10 l then 9
  else if d <? monthStart 11 l then 10
  else 11.

Definition DateFromTime (t : Z) : Z :=
  DayWithinYear t + 1 - monthStart (MonthFromTime t) (InLeapYear t).

(** [MakeDate(MakeDay(y, m, d), 0)] for a month [m] in 0..11. *)
Definition MakeDay (y m d : Z) : Z :=
  DayFromYear y + monthStart m (if DaysInYear y =? 366 then 1 else 0) + d - 1.

Definition MakeDate (day time : Z) : Z := day * msPerDay + time.

Definition DaysInMonth (y m : Z) : Z :=
  let l := if DaysInYear y =? 366 then 1 else 0 in
  monthStart (m + 1) l - monthStart m l.

(** [TimeClip]: a time value is at most 8.64e15 away from the epoch. *)
Definition TimeClip (t : Z) : option Z :=
  if Z.abs t <=? 8640000000000000 then Some t else None.

(** *** The date string of [Date.prototype.toDateString] *)

Definition weekdayName (w : Z) : string :=
  match w with
  | 0 => "Sun" | 1 => "Mon" | 2 => "Tue" | 3 => "Wed"
  | 4 => "Thu" | 5 => "Fri" | _ => "Sat"
  end.

Definition monthName (m : Z) : string :=
  match m with
  | 0 => "Jan" | 1 => "Feb" | 2 => "Mar" | 3 => "Apr"
  | 4 => "May" | 5 => "Jun" | 6 => "Jul" | 7 => "Aug"
  | 8 => "Sep" | 9 => "Oct" | 10 => "Nov" | _ => "Dec"
  end.

Fixpoint zeros (k : nat) : string :=
  match k with
  | O => EmptyString
  | S k' => String "0"%char (zeros k')
  end.

Definition ToZeroPaddedDecimalString (n : Z) (minLength : nat) : string :=
  let s := Z_toString n in
  (zeros (minLength - String.length s)%nat ++ s)%string.

Definition yearString (yv : Z) : string :=
  ((if (0 <=? yv)%Z then "" else "-")
     ++ ToZeroPaddedDecimalString (Z.abs yv) 4)%string.

(** [DateString(t)] for a local time [t]. *)
Definition DateString (t : Z) : string :=
  (weekdayName (WeekDay t) ++ " "
     ++ monthName (MonthFromTime t) ++ " "
     ++ ToZeroPaddedDecimalString (DateFromTime t) 2 ++ " "
     ++ yearString (YearFromTime t))%string.

(** *** [Date.parse], the date-only form of the Date Time String Format *)

Fixpoint digitsValue (l : list ascii) (acc : Z) : option Z :=
  match l with
  | [] => Some acc
  | c :: r =>
      match digitValue c with
      | Some d => digitsValue r (10 * acc + d)
      | None => None
      end
  end.

(** [YYYY-MM-DD] with a month in 01..12 and a day of that month: midnight
    UTC of that day. *)
Definition parseDateOnly (s : string) : option Z :=
  match list_ascii_of_string s with
  | [y1; y2; y3; y4; sep1; m1; m2; sep2; d1; d2] =>
      match digitsValue [y1; y2; y3; y4] 0,
            digitsValue [m1; m2] 0,
            digitsValue [d1; d2] 0 with
      | Some y, Some m, Some d =>
          if Ascii.eqb sep1 "-" && Ascii.eqb sep2 "-"
             && (1 <=? m) && (m <=? 12)
             && (1 <=? d) && (d <=? DaysInMonth y (m - 1))
          then Some (MakeDate (MakeDay y (m - 1) d) 0)
          else None
      | _, _, _ => None
      end
  | _ => None
  end.

(** ** The surroundings of a request

    What the handlers take from outside [index.js]: the JavaScript engine
    (how [Date.parse] reads a string that is not a date-only ISO string,
    the offset of the local time zone), Mongoose (which path parameters
    cast to an ObjectId) and, for the request at hand, the clock, the id
    the database gives to a created document and the database calls that
    are rejected. *)

Definition ObjectId : Type := string.

Inductive StoreCall : Type :=
| UserCreate
| UserFind
| UserFindById
| ExerciseCreate
| ExerciseFind.

Definition isWrite (c : StoreCall) : bool :=
  match c with
  | UserCreate | ExerciseCreate => true
  | _ => false
  end.

Record Env : Type := mkEnv {
  date_parse_impl : string -> option Z;
  LocalTZA : Z -> Z;
  castObjectId : string -> option ObjectId;
  now : Z;
  newId : ObjectId;
  rejects : StoreCall -> bool
}.

(** [Date.parse(s)]: the empty string is not a date; a date-only ISO string
    is read by [parseDateOnly]; every other string is read as the engine
    does. *)
Definition Date_parse (env : Env) (s : string) : option Z :=
  if (s =? "")%string then None
  else match parseDateOnly s with
       | Some t => Some t
       | None => date_parse_impl env s
       end.

(** [new Date(v)]: the time value of the date, [None] for an invalid date.
    An object is converted to a primitive first; a string is parsed, any
    other primitive is converted to a number. *)
Definition Date_new (env : Env) (v : JsValue) : Completion (option Z) :=
  match v with
  | JUndefined => inr None
  | JNull => inr (Some 0)
  | JBool b => inr (Some (if b then 1 else 0))
  | JNum n => inr (TimeClip n)
  | JStr s => inr (Date_parse env s)
  | JObj (Some s) => inr (Date_parse env s)
  | JObj None => inl TypeError
  end.

Definition LocalTime (env : Env) (t : Z) : Z := t + LocalTZA env t.

(** [d.toDateString()] *)
Definition toDateString (env : Env) (tv : option Z) : string :=
  match tv with
  | None => "Invalid Date"
  | Some t => DateString (LocalTime env t)
  end.

(** ** The models and the database *)

Record User : Type := mkUser {
  user_id : ObjectId;
  user_username : string
}.

Record Exercise : Type := mkExercise {
  ex_id : ObjectId;
  ex_userId : ObjectId;
  ex_description : string;
  ex_duration : Z;
  ex_date : Z
}.

Record Store : Type := mkStore {
  users : list User;
  exercises : list Exercise
}.

(** The state a handler runs in: the database and the calls made to it so
    far (most recent first). *)
Record World : Type := mkWorld {
  db : Store;
  trace : list StoreCall
}.

(** A handler body: it reads and changes the world and completes with a
    value or throws. *)
Definition M (A : Type) : Type := World -> Completion A * World.

Definition ret {A : Type} (a : A) : M A := fun w => (inr a, w).

Definition throw {A : Type} (e : Exn) : M A := fun w => (inl e, w).

Definition bind {A B : Type} (m : M A) (k : A -> M B) : M B :=
  fun w =>
    match m w with
    | (inr a, w') => k a w'
    | (inl e, w') => (inl e, w')
    end.

Notation "x <- m ;; k" := (bind m (fun x => k))
  (at level 61, m at next level, right associativity).

Definition lift {A : Type} (c : Completion A) : M A :=
  match c with
  | inl e => throw e
  | inr a => ret a
  end.

Definition getDb : M Store := fun w => (inr (db w), w).

Definition putDb (s : Store) : M unit :=
  fun w => (inr tt, mkWorld s (trace w)).

(** A call to the database: it is recorded, and rejected when the
    surroundings say so. *)
Definition storeCall (env : Env) (c : StoreCall) : M unit :=
  fun w =>
    let w' := mkWorld (db w) (c :: trace w) in
    if rejects env c then (inl StoreFailure, w') else (inr tt, w').

(** *** [User] *)

(** [User.create({ username })]: the schema trims the name and requires it;
    the document is validated before it is sent to the database. *)
Definition User_create (env : Env) (username : string) : M User :=
  let name := trim username in
  if (name =? "")%string then throw ValidationError
  else
    _ <- storeCall env UserCreate ;;
    s <- getDb ;;
    let user := mkUser (newId env) name in
    _ <- putDb (mkStore (users s ++ [user]) (exercises s)) ;;
    ret user.

(** [User.find({}, 'username _id').lean()] *)
Definition User_find (env : Env) : M (list User) :=
  _ <- storeCall env UserFind ;;
  s <- getDb ;;
  ret (users s).

(** [User.findById(_id)]: the id is cast to an ObjectId before the query is
    sent; the promise resolves to the user or to [null]. *)
Definition User_findById (env : Env) (_id : string) : M (option User) :=
  match castObjectId env _id with
  | None => throw CastError
  | Some oid =>
      _ <- storeCall env UserFindById ;;
      s <- getDb ;;
      ret (find (fun u => (user_id u =? oid)%string) (users s))
  end.

(** *** [Exercise] *)

(** [Exercise.create({ userId, description, duration, date })]: the schema
    trims and requires the description and requires a number and a valid
    date. *)
Definition Exercise_create (env : Env) (userId : ObjectId)
    (description : string) (duration : option Z) (date : option Z)
  : M Exercise :=
  let desc := trim description in
  match duration, date with
  | Some dur, Some d =>
      if (desc =? "")%string then throw ValidationError
      else
        _ <- storeCall env ExerciseCreate ;;
        s <- getDb ;;
        let ex := mkExercise (newId env) userId desc dur d in
        _ <- putDb (mkStore (users s) (exercises s ++ [ex])) ;;
        ret ex
  | _, _ => throw ValidationError
  end.

(** The filter object [q] of the logs handler: [{ userId }] with an optional
    [date] member, itself an object with optional [$gte] and [$lte]. *)
Record DateRange : Type := mkDateRange {
  gte : option Z;
  lte : option Z
}.

Record Query : Type := mkQuery {
  q_userId : ObjectId;
  q_date : option DateRange
}.

(** A [date] member without operators asks for a date equal to the empty
    document, which no stored date is. *)
Definition inRange (r : DateRange) (t : Z) : bool :=
  match gte r, lte r with
  | None, None => false
  | lo, hi =>
      match lo with Some a => a <=? t | None => true end
      && match hi with Some b => t <=? b | None => true end
  end.

Definition matches (q : Query) (e : Exercise) : bool :=
  (ex_userId e =? q_userId q)%string
  && match q_date q with
     | None => true
     | Some r => inRange r (ex_date e)
     end.

(** [.sort({ date: 1 })]: ascending dates; equal dates keep the order of
    the collection. *)
Fixpoint insertByDate (e : Exercise) (l : list Exercise) : list Exercise :=
  match l with
  | [] => [e]
  | x :: r =>
      if ex_date e <=? ex_date x then e :: l else x :: insertByDate e r
  end.

Definition sortByDate (l : list Exercise) : list Exercise :=
  fold_right insertByDate [] l.

(** [.limit(n)], when it was called *)
Definition applyLimit (lim : option Z) (l : list Exercise) : list Exercise :=
  match lim with
  | Some n => firstn (Z.to_nat n) l
  | None => l
  end.

(** [Exercise.find(q).sort({ date: 1 })[.limit(n)].lean()] *)
Definition Exercise_find (env : Env) (q : Query) (lim : option Z)
  : M (list Exercise) :=
  _ <- storeCall env ExerciseFind ;;
  s <- getDb ;;
  ret (applyLimit lim (sortByDate (filter (matches q) (exercises s)))).

(** ** Responses *)

#[local] Unset Elimination Schemes.
Inductive Json : Type :=
| JsonNumber (n : Z)
| JsonString (s : string)
| JsonArray (items : list Json)
| JsonObject (members : list (string * Json)).
#[local] Set Elimination Schemes.

Record Response : Type := mkResponse {
  status : Z;
  body : Json
}.

(** [res.json(b)] and [res.status(c).json(b)] *)
Definition res_json (b : Json) : Response := mkResponse 200 b.

Definition res_status_json (c : Z) (b : Json) : Response := mkResponse c b.

Definition errorBody (msg : string) : Json :=
  JsonObject [("error", JsonString msg)].

(** The names of the members of an object. *)
Definition keys (j : Json) : list string :=
  match j with
  | JsonObject members => map fst members
  | _ => []
  end.

(** The value of a member of an object. *)
Fixpoint lookup (k : string) (members : list (string * Json)) : option Json :=
  match members with
  | [] => None
  | (k', v) :: r => if (k =? k')%string then Some v else lookup k r
  end.

Definition member (k : string) (j : Json) : option Json :=
  match j with
  | JsonObject members => lookup k members
  | _ => None
  end.

(** ** The handlers *)

(** [!v || !v.trim()], the test for a missing or blank string field. *)
Definition isBlank (v : JsValue) : M bool :=
  if negb (ToBoolean v) then ret true
  else
    t <- lift (call_trim v) ;;
    ret (negb (ToBoolean (JStr t))).

(** [POST /api/users] *)
Definition postUsers (env : Env) (username : JsValue) : M Response :=
  blank <- isBlank username ;;
  if blank then
    ret (res_status_json 400 (errorBody "username required"))
  else
    name <- lift (call_trim username) ;;
    user <- User_create env name ;;
    ret (res_json (JsonObject
           [("username", JsonString (user_username user));
            ("_id", JsonString (user_id user))])).

(** [GET /api/users] *)
Definition getUsers (env : Env) : M Response :=
  us <- User_find env ;;
  ret (res_json (JsonArray
         (map (fun u => JsonObject
                 [("_id", JsonString (user_id u));
                  ("username", JsonString (user_username u))]) us))).

(** [d = new Date(date); if (!date || isNaN(d.getTime())) d = new Date()] *)
Definition exerciseDate (env : Env) (date : JsValue)
  : Completion (option Z) :=
  match Date_new env date with
  | inl e => inl e
  | inr d =>
      if negb (ToBoolean date) || Number_isNaN d then inr (Some (now env))
      else inr d
  end.

(** [POST /api/users/:_id/exercises] *)
Definition postExercises (env : Env) (_id : string)
    (description duration date : JsValue) : M Response :=
  found <- User_findById env _id ;;
  match found with
  | None => ret (res_status_json 400 (errorBody "unknown userId"))
  | Some user =>
      dur <- lift (parseInt duration) ;;
      blank <- isBlank description ;;
      if blank || Number_isNaN dur then
        ret (res_status_json 400 (errorBody
          "description and duration required (duration must be a number)"))
      else
        d <- lift (exerciseDate env date) ;;
        desc <- lift (call_trim description) ;;
        ex <- Exercise_create env (user_id user) desc dur d ;;
        ret (res_json (JsonObject
               [("_id", JsonString (user_id user));
                ("username", JsonString (user_username user));
                ("description", JsonString (ex_description ex));
                ("duration", JsonNumber (ex_duration ex));
                ("date", JsonString (toDateString env (Some (ex_date ex))))]))
  end.

(** One bound of the date filter: [v && !Number.isNaN(new Date(v).getTime())]
    guards the assignment of [new Date(v)]. *)
Definition dateBound (env : Env) (v : JsValue) : Completion (option Z) :=
  if ToBoolean v then Date_new env v else inr None.

(** The filter [q] of the logs handler. *)
Definition buildQuery (env : Env) (user : User) (from to : JsValue)
  : Completion Query :=
  let q := mkQuery (user_id user) None in
  if ToBoolean from || ToBoolean to then
    match dateBound env from with
    | inl e => inl e
    | inr lo =>
        match dateBound env to with
        | inl e => inl e
        | inr hi =>
            let range := mkDateRange lo hi in
            match lo, hi with
            | None, None => inr q
            | _, _ => inr (mkQuery (user_id user) (Some range))
            end
        end
    end
  else inr q.

(** [!Number.isNaN(lim) && lim > 0] guards the call of [.limit(lim)]. *)
Definition limitArg (lim : option Z) : option Z :=
  match lim with
  | Some n => if 0 <? n then Some n else None
  | None => None
  end.

Definition logEntry (env : Env) (e : Exercise) : Json :=
  JsonObject
    [("description", JsonString (ex_description e));
     ("duration", JsonNumber (ex_duration e));
     ("date", JsonString (toDateString env (Some (ex_date e))))].

(** [GET /api/users/:_id/logs] *)
Definition getLogs (env : Env) (_id : string) (from to limit : JsValue)
  : M Response :=
  found <- User_findById env _id ;;
  match found with
  | None => ret (res_status_json 400 (errorBody "unknown userId"))
  | Some user =>
      q <- lift (buildQuery env user from to) ;;
      lim <- lift (parseInt limit) ;;
      exs <- Exercise_find env q (limitArg lim) ;;
      let log := map (logEntry env) exs in
      ret (res_json (JsonObject
             [("username", JsonString (user_username user));
              ("count", JsonNumber (Z.of_nat (List.length log)));
              ("_id", JsonString (user_id user));
              ("log", JsonArray log)]))
  end.

(** A route with its [try { ... } catch (err) { next(err) }] and the error
    handler of the application behind it. *)
Definition route (m : M Response) (w : World) : Response * World :=
  match m w with
  | (inr r, w') => (r, w')
  | (inl _, w') => (res_status_json 500 (errorBody "server error"), w')
  end.

Inductive Request : Type :=
| PostUsers (username : JsValue)
| GetUsers
| PostExercises (_id : string) (description duration date : JsValue)
| GetLogs (_id : string) (from to limit : JsValue).

Definition app (env : Env) (r : Request) : World -> Response * World :=
  match r with
  | PostUsers username => route (postUsers env username)
  | GetUsers => route (getUsers env)
  | PostExercises _id description duration date =>
      route (postExercises env _id description duration date)
  | GetLogs _id from to limit => route (getLogs env _id from to limit)
  end.

(** ** Reading the claims

    A field that is absent or a piece of text, as a form or a query string
    gives it. *)
Definition field (o : option string) : JsValue :=
  match o with
  | None => JUndefined
  | Some s => JStr s
  end.

(** The date a piece of text stands for, when it is present and
    [Date.parse] reads it. *)
Definition validDate (env : Env) (o : option string) : option Z :=
  match o with
  | None => None
  | Some s => Date_parse env s
  end.

Definition weekdays : list string :=
  ["Sun"; "Mon"; "Tue"; "Wed"; "Thu"; "Fri"; "Sat"].

Definition months : list string :=
  ["Jan"; "Feb"; "Mar"; "Apr"; "May"; "Jun";
   "Jul"; "Aug"; "Sep"; "Oct"; "Nov"; "Dec"].

Definition isDigit (c : ascii) : bool :=
  match digitValue c with Some _ => true | None => false end.

Fixpoint allDigits (s : string) : bool :=
  match s with
  | EmptyString => true
  | String c r => isDigit c && allDigits r
  end.

(** A year as [toDateString] writes it: at least four digits, after a minus
    sign for a year before year 0. *)
Definition isYear (s : string) : bool :=
  match s with
  | String "-"%char r => allDigits r && (4 <=? String.length r)%nat
  | _ => allDigits s && (4 <=? String.length s)%nat
  end.

(** The form [<Weekday> <Month> <Day> <Year>]. *)
Definition canonicalDate (s : string) : Prop :=
  exists wd mo dd yr,
    s = (wd ++ " " ++ mo ++ " " ++ dd ++ " " ++ yr)%string
    /\ In wd weekdays /\ In mo months
    /\ String.length dd = 2%nat /\ allDigits dd = true
    /\ isYear yr = true.

(** All member names of a JSON value, at any depth. *)
Fixpoint allKeys (j : Json) : list string :=
  match j with
  | JsonArray items => flat_map allKeys items
  | JsonObject members =>
      flat_map (fun kv => fst kv :: allKeys (snd kv)) members
  | _ => []
  end.

Definition dateLe (a b : Exercise) : Prop := ex_date a <= ex_date b.

(** The user a path parameter refers to: the document [findById] looks
    for. *)
Definition userOf (env : Env) (s : Store) (_id : string) : option User :=
  match castObjectId env _id with
  | Some oid => find (fun u => (user_id u =? oid)%string) (users s)
  | None => None
  end.

(** The checks a request has passed when a document is written for it. *)
Definition validated (env : Env) (s : Store) (r : Request) : Prop :=
  match r with
  | PostUsers username => exists text, username = JStr text /\ trim text <> ""
  | PostExercises _id description duration date =>
      exists user text dur d,
        userOf env s _id = Some user
        /\ description = JStr text /\ trim text <> ""
        /\ parseInt duration = inr (Some dur)
        /\ exerciseDate env date = inr (Some d)
  | GetUsers | GetLogs _ _ _ _ => False
  end.

(** Every value held by a member named [k], at any depth. *)
Fixpoint membersNamed (k : string) (j : Json) : list Json :=
  match j with
  | JsonArray items => flat_map (membersNamed k) items
  | JsonObject members =>
      flat_map (fun kv =>
                  (if (fst kv =? k)%string then [snd kv] else [])
                    ++ membersNamed k (snd kv)) members
  | _ => []
  end.

(** Reading a number in base 10: the digits at the front of a text, and
    the number they write. *)
Fixpoint leadingDigits (s : string) : list Z :=
  match s with
  | EmptyString => []
  | String c r =>
      match digitValue c with
      | Some d => d :: leadingDigits r
      | None => []
      end
  end.

Fixpoint decimalValue (ds : list Z) : Z :=
  match ds with
  | [] => 0
  | d :: r => d * 10 ^ Z.of_nat (List.length r) + decimalValue r
  end.

(** The integer a text is read as in base 10: white space, an optional
    sign, then at least one digit; what follows the digits is ignored. *)
Definition base10 (s : string) : option Z :=
  let (sign, rest) := signOf (trimStart s) in
  match leadingDigits rest with
  | [] => None
  | ds => Some (sign * decimalValue ds)
  end.

(** The calls made to the database during a request. *)
Definition writes (calls : list StoreCall) : list StoreCall :=
  filter isWrite calls.

(** ** A sample deployment

    A server whose local time is UTC, and the same server five hours west
    of it; ids are the strings of 24 characters; a database with one user
    and three exercises. *)

Definition sampleCast (s : string) : option ObjectId :=
  if (String.length s =? 24)%nat then Some s else None.

Definition sampleEnv : Env :=
  mkEnv (fun _ => None) (fun _ => 0) sampleCast
    1700000000000 "65536f0a0000000000000009" (fun _ => false).

Definition westEnv : Env :=
  mkEnv (fun _ => None) (fun _ => -18000000) sampleCast
    1700000000000 "65536f0a0000000000000009" (fun _ => false).

(** The sample server while the database rejects every write. *)
Definition downEnv : Env :=
  mkEnv (fun _ => None) (fun _ => 0) sampleCast
    1700000000000 "65536f0a0000000000000009" isWrite.

Definition sampleUser : User :=
  mkUser "65536f0a0000000000000001" "fcc_test".

Definition sampleStore : Store :=
  mkStore [sampleUser]
    [mkExercise "65536f0a0000000000000002" "65536f0a0000000000000001"
       "swim" 45 1673913600000;
     mkExercise "65536f0a0000000000000003" "65536f0a0000000000000001"
       "run" 30 1673740800000;
     mkExercise "65536f0a0000000000000004" "65536f0a0000000000000001"
       "walk" 20 1673827200000].

Definition sampleWorld : World := mkWorld sampleStore [].

(** ** What the database keeps

    Two properties of the collections that the handlers maintain: every
    exercise refers to a user of the database, and every stored name and
    description is a text that is not empty and has no white space at
    either end. *)

Definition refersToUser (s : Store) (e : Exercise) : Prop :=
  exists u, In u (users s) /\ user_id u = ex_userId e.

Definition referencesHold (s : Store) : Prop :=
  Forall (refersToUser s) (exercises s).

Definition trimmedText (t : string) : Prop :=
  t <> "" /\ trimStart t = t /\ trimEnd t = t.

Definition textsTrimmed (s : Store) : Prop :=
  Forall (fun u => trimmedText (user_username u)) (users s)
  /\ Forall (fun e => trimmedText (ex_description e)) (exercises s).

(** A date within optional bounds. *)
Definition inBounds (lo hi : option Z) (t : Z) : Prop :=
  (forall a, lo = Some a -> a <= t) /\ (forall b, hi = Some b -> t <= b).

(** The sample database with a second user, who has one exercise. *)
Definition otherUser : User :=
  mkUser "65536f0a0000000000000005" "ada".

Definition sharedWorld : World :=
  mkWorld
    (mkStore [sampleUser; otherUser]
       (exercises sampleStore
          ++ [mkExercise "65536f0a0000000000000006" "65536f0a0000000000000005"
                "chess" 60 1673740800000]))
    [].

(** * Properties *)

(** ** The calendar *)

Lemma DayFromYear_succ (y : Z) :
  DayFromYear (y + 1) = DayFromYear y + DaysInYear y.
Proof.
  unfold DayFromYear, DaysInYear.
  destruct (Z.eqb_spec (y mod 4) 0), (Z.eqb_spec (y mod 100) 0),
    (Z.eqb_spec (y mod 400) 0); cbn [negb];
    Z.div_mod_to_equations; lia.
Qed.

(** [YearFromDay d] is the year that contains day [d]. *)
Lemma YearFromDay_spec (d : Z) :
  DayFromYear (YearFromDay d) <= d < DayFromYear (YearFromDay d + 1).
Proof.
  unfold YearFromDay.
  set (y := 1970 + 400 * d / 146097).
  destruct (Z.ltb_spec d (DayFromYear y)) as [Hlt | Hge].
  - replace (y - 1 + 1) with y by lia.
    split; [ | exact Hlt ].
    subst y; unfold DayFromYear in *; Z.div_mod_to_equations; lia.
  - destruct (Z.leb_spec (DayFromYear (y + 1)) d) as [Hnext | Hnext].
    + split; [ exact Hnext | ].
      subst y; unfold DayFromYear in *; Z.div_mod_to_equations; lia.
    + split; assumption.
Qed.

Lemma DaysInYear_cases (y : Z) : DaysInYear y = 365 \/ DaysInYear y = 366.
Proof.
  unfold DaysInYear.
  destruct (y mod 4 =? 0), (y mod 100 =? 0), (y mod 400 =? 0); cbn; auto.
Qed.

Lemma InLeapYear_cases (t : Z) :
  (InLeapYear t = 0 /\ DaysInYear (YearFromTime t) = 365)
  \/ (InLeapYear t = 1 /\ DaysInYear (YearFromTime t) = 366).
Proof.
  unfold InLeapYear.
  destruct (DaysInYear_cases (YearFromTime t)) as [H | H]; rewrite H; cbn; auto.
Qed.

Lemma DayWithinYear_range (t : Z) :
  0 <= DayWithinYear t < 365 + InLeapYear t.
Proof.
  unfold DayWithinYear.
  pose proof (YearFromDay_spec (Day t)) as H.
  fold (YearFromTime t) in H.
  rewrite DayFromYear_succ in H.
  destruct (InLeapYear_cases t) as [[-> E] | [-> E]]; lia.
Qed.

Lemma MonthFromTime_range (t : Z) : 0 <= MonthFromTime t <= 11.
Proof.
  unfold MonthFromTime.
  repeat match goal with
         | |- context [if ?b then _ else _] => destruct b
         end; lia.
Qed.

(** The day of the month is a day of the month. *)
Lemma DateFromTime_range (t : Z) : 1 <= DateFromTime t <= 31.
Proof.
  unfold DateFromTime, MonthFromTime.
  pose proof (DayWithinYear_range t) as H.
  destruct (InLeapYear_cases t) as [[E _] | [E _]]; rewrite E in *;
    repeat match goal with
           | |- context [?a <? ?b] => destruct (Z.ltb_spec a b)
           end; cbn [monthStart] in *; lia.
Qed.

Lemma WeekDay_range (t : Z) : 0 <= WeekDay t <= 6.
Proof.
  unfold WeekDay. pose proof (Z.mod_pos_bound (Day t + 4) 7). lia.
Qed.

(** ** The date string *)

Lemma weekdayName_in (w : Z) : In (weekdayName w) weekdays.
Proof.
  unfold weekdayName, weekdays.
  repeat match goal with
         | |- context [match ?x with _ => _ end] => destruct x
         end; cbn; tauto.
Qed.

Lemma monthName_in (m : Z) : In (monthName m) months.
Proof.
  unfold monthName, months.
  repeat match goal with
         | |- context [match ?x with _ => _ end] => destruct x
         end; cbn; tauto.
Qed.

Lemma allDigits_app (a b : string) :
  allDigits (a ++ b) = allDigits a && allDigits b.
Proof.
  induction a as [ | c a IH]; cbn; [ reflexivity | ].
  rewrite IH. apply andb_assoc.
Qed.

Lemma allDigits_zeros (k : nat) : allDigits (zeros k) = true.
Proof. induction k; cbn; auto. Qed.

Lemma length_zeros (k : nat) : String.length (zeros k) = k.
Proof. induction k; cbn; auto. Qed.

Lemma string_length_app (a b : string) :
  String.length (a ++ b) = (String.length a + String.length b)%nat.
Proof. induction a; cbn; auto. Qed.

Lemma allDigits_string_of_uint (d : Decimal.uint) :
  allDigits (NilEmpty.string_of_uint d) = true.
Proof. induction d; cbn; auto. Qed.

Lemma allDigits_Z_toString (n : Z) : 0 <= n -> allDigits (Z_toString n) = true.
Proof.
  intros H. unfold Z_toString.
  destruct n as [ | p | p]; [ reflexivity | | lia ].
  cbn. unfold NilZero.string_of_uint.
  destruct (Pos.to_uint p) eqn:E; try reflexivity;
    rewrite <- E; apply allDigits_string_of_uint.
Qed.

Lemma padded_digits (n : Z) (k : nat) :
  0 <= n ->
  allDigits (ToZeroPaddedDecimalString n k) = true
  /\ (k <= String.length (ToZeroPaddedDecimalString n k))%nat.
Proof.
  intros H. unfold ToZeroPaddedDecimalString. split.
  - rewrite allDigits_app, allDigits_zeros, allDigits_Z_toString; auto.
  - rewrite string_length_app, length_zeros. lia.
Qed.

Lemma isYear_digits (s : string) :
  allDigits s = true -> (4 <= String.length s)%nat -> isYear s = true.
Proof.
  intros D L. unfold isYear.
  assert (G : allDigits s && (4 <=? String.length s)%nat = true).
  { rewrite D. apply Nat.leb_le in L. rewrite L. reflexivity. }
  destruct s as [ | c r]; [ exact G | ].
  destruct c as [[] [] [] [] [] [] [] []]; try exact G.
  cbn in D. discriminate D.
Qed.

Lemma isYear_yearString (y : Z) : isYear (yearString y) = true.
Proof.
  unfold yearString.
  destruct (padded_digits (Z.abs y) 4) as [D L]; [ lia | ].
  destruct (0 <=? y).
  - apply isYear_digits; assumption.
  - cbn [append]. unfold isYear.
    rewrite D. apply Nat.leb_le in L. rewrite L. reflexivity.
Qed.

Lemma day_two_digits (d : Z) :
  1 <= d <= 31 ->
  String.length (ToZeroPaddedDecimalString d 2) = 2%nat
  /\ allDigits (ToZeroPaddedDecimalString d 2) = true.
Proof.
  intros H.
  replace d with (Z.of_nat (Z.to_nat d)) by lia.
  assert (B : (Z.to_nat d < 32)%nat) by lia.
  generalize dependent (Z.to_nat d). clear. intros n B.
  do 32 (destruct n as [ | n]; [ vm_compute; auto | ]).
  lia.
Qed.

(** Every date string has the form [<Weekday> <Month> <Day> <Year>]. *)
Lemma DateString_canonical (t : Z) : canonicalDate (DateString t).
Proof.
  exists (weekdayName (WeekDay t)), (monthName (MonthFromTime t)),
    (ToZeroPaddedDecimalString (DateFromTime t) 2),
    (yearString (YearFromTime t)).
  destruct (day_two_digits (DateFromTime t) (DateFromTime_range t)) as [L D].
  repeat split; auto using weekdayName_in, monthName_in, isYear_yearString.
Qed.

(** ** Sorting by date *)

Lemma insertByDate_perm (e : Exercise) (l : list Exercise) :
  Permutation (insertByDate e l) (e :: l).
Proof.
  induction l as [ | x r IH]; cbn; [ reflexivity | ].
  destruct (ex_date e <=? ex_date x); [ reflexivity | ].
  rewrite IH. apply perm_swap.
Qed.

Lemma sortByDate_perm (l : list Exercise) : Permutation (sortByDate l) l.
Proof.
  induction l as [ | x r IH]; cbn; [ constructor | ].
  rewrite insertByDate_perm. constructor. exact IH.
Qed.

Lemma insertByDate_sorted (e : Exercise) (l : list Exercise) :
  Sorted dateLe l -> Sorted dateLe (insertByDate e l).
Proof.
  induction l as [ | x r IH]; cbn; intros S.
  - repeat constructor.
  - destruct (Z.leb_spec (ex_date e) (ex_date x)) as [Hle | Hgt].
    + constructor; [ exact S | constructor; exact Hle ].
    + inversion S as [ | ? ? Sr Hd]; subst.
      constructor; [ apply IH; exact Sr | ].
      destruct r as [ | y r']; cbn.
      * constructor. unfold dateLe. lia.
      * destruct (ex_date e <=? ex_date y); constructor.
        -- unfold dateLe. lia.
        -- inversion Hd; assumption.
Qed.

Lemma sortByDate_sorted (l : list Exercise) : Sorted dateLe (sortByDate l).
Proof.
  induction l as [ | x r IH]; cbn; [ constructor | ].
  apply insertByDate_sorted, IH.
Qed.

Lemma sortByDate_ascending (l : list Exercise) :
  StronglySorted dateLe (sortByDate l).
Proof.
  apply Sorted_StronglySorted; [ | apply sortByDate_sorted ].
  intros a b c; unfold dateLe; lia.
Qed.

Ltac run :=
  cbv beta iota delta
    [app route postUsers getUsers postExercises getLogs bind ret throw lift
     isBlank User_create User_find User_findById Exercise_create Exercise_find
     storeCall getDb putDb res_json res_status_json];
  cbn [db trace users exercises status body fst snd].

Ltac split_run :=
  repeat (run;
          match goal with
          | |- context [match ?x with _ => _ end] => 
              lazymatch x with
              | context [match _ with _ => _ end] => fail
              | _ => destruct x eqn:?
              end
          | |- context [if ?x then _ else _] => destruct x eqn:?
          end).


(** ** Trimming *)

Lemma trimStart_head (s : string) :
  trimStart s = EmptyString
  \/ exists c r, trimStart s = String c r /\ isStrWhiteSpaceChar c = false.
Proof.
  induction s as [ | c r IH]; cbn; [ auto | ].
  destruct (isStrWhiteSpaceChar c) eqn:E; [ exact IH | eauto ].
Qed.

Lemma trimEnd_head (c : ascii) (r : string) :
  isStrWhiteSpaceChar c = false ->
  exists r', trimEnd (String c r) = String c r'.
Proof.
  intros E. cbn. rewrite E. destruct (trimEnd r); eauto.
Qed.

Lemma trimEnd_trimEnd (s : string) : trimEnd (trimEnd s) = trimEnd s.
Proof.
  induction s as [ | c r IH]; cbn; [ reflexivity | ].
  destruct (trimEnd r) as [ | c' r'] eqn:E.
  - destruct (isStrWhiteSpaceChar c) eqn:W; cbn; [ reflexivity | ].
    rewrite W. reflexivity.
  - cbn [trimEnd] in *. rewrite IH. reflexivity.
Qed.

Lemma trim_trim (s : string) : trim (trim s) = trim s.
Proof.
  unfold trim.
  destruct (trimStart_head s) as [E | (c & r & E & W)]; rewrite E.
  - reflexivity.
  - destruct (trimEnd_head c r W) as [r' E'].
    rewrite E' at 1. cbn [trimStart]. rewrite W, <- E'.
    apply trimEnd_trimEnd.
Qed.

(** ** What a successful response tells *)

Lemma call_trim_inr (v : JsValue) (t : string) :
  call_trim v = inr t -> exists s, v = JStr s /\ t = trim s.
Proof.
  destruct v; cbn; intros E; try discriminate E.
  inversion E. eauto.
Qed.

Lemma eqb_empty_false (s : string) : (s =? "")%string = false -> s <> "".
Proof. intros E ->. discriminate E. Qed.

Lemma postExercises_success env _id description duration date w resp w' :
  app env (PostExercises _id description duration date) w = (resp, w') ->
  status resp = 200 ->
  exists user s dur d,
    userOf env (db w) _id = Some user
    /\ description = JStr s /\ trim s <> ""
    /\ parseInt duration = inr (Some dur)
    /\ exerciseDate env date = inr (Some d)
    /\ db w' = mkStore (users (db w))
                 (exercises (db w)
                    ++ [mkExercise (newId env) (user_id user) (trim s) dur d])
    /\ resp = res_json (JsonObject
               [("_id", JsonString (user_id user));
                ("username", JsonString (user_username user));
                ("description", JsonString (trim s));
                ("duration", JsonNumber dur);
                ("date", JsonString (toDateString env (Some d)))]).
Proof.
  unfold userOf.
  split_run.
  all: intros E S; inversion E; subst; cbn in S; try discriminate S.
  all: try (cbn in *; discriminate).
  match goal with
  | H : call_trim _ = inr _ |- _ =>
      destruct (call_trim_inr _ _ H) as (s0 & -> & ->)
  end.
  match goal with
  | H : (trim (trim _) =? "")%string = false |- _ =>
      rewrite trim_trim in H; apply eqb_empty_false in H
  end.
  cbn [ex_description ex_duration ex_date].
  rewrite trim_trim.
  eexists _, s0, _, _. repeat split; eauto.
Qed.

Lemma getLogs_success env _id from to limit w resp w' :
  app env (GetLogs _id from to limit) w = (resp, w') ->
  status resp = 200 ->
  exists user q lim,
    userOf env (db w) _id = Some user
    /\ buildQuery env user from to = inr q
    /\ parseInt limit = inr lim
    /\ db w' = db w
    /\ let log :=
         map (logEntry env)
           (applyLimit (limitArg lim)
              (sortByDate (filter (matches q) (exercises (db w))))) in
       resp = res_json (JsonObject
                [("username", JsonString (user_username user));
                 ("count", JsonNumber (Z.of_nat (List.length log)));
                 ("_id", JsonString (user_id user));
                 ("log", JsonArray log)]).
Proof.
  unfold userOf.
  split_run.
  all: intros E S; inversion E; subst; cbn in S; try discriminate S.
  eexists _, _, _. repeat split; eauto.
Qed.

(** ** The date filter of the logs query *)

Lemma Date_parse_empty (env : Env) : Date_parse env "" = None.
Proof. reflexivity. Qed.

Lemma dateBound_field (env : Env) (o : option string) :
  dateBound env (field o) = inr (validDate env o).
Proof.
  destruct o as [s | ]; cbn; [ | reflexivity ].
  destruct s; reflexivity.
Qed.

Lemma buildQuery_field (env : Env) (user : User) (from to : option string) :
  buildQuery env user (field from) (field to)
  = inr (mkQuery (user_id user)
           match validDate env from, validDate env to with
           | None, None => None
           | lo, hi => Some (mkDateRange lo hi)
           end).
Proof.
  unfold buildQuery. rewrite !dateBound_field.
  destruct (ToBoolean (field from) || ToBoolean (field to)) eqn:T.
  - destruct (validDate env from), (validDate env to); reflexivity.
  - apply orb_false_elim in T. destruct T as [Tf Tt].
    assert (F : forall o, ToBoolean (field o) = false -> validDate env o = None).
    { intros [s | ]; cbn; [ | reflexivity ].
      destruct s; [ reflexivity | discriminate ]. }
    rewrite (F from Tf), (F to Tt). reflexivity.
Qed.

(** C1: for every combination of the optional [from] and [to] query
    parameters, building the filter never fails; the filter has the lower
    bound [date >= t] exactly when [from] is present and parses as the valid
    date [t], the upper bound [date <= t] exactly when [to] is present and
    parses as the valid date [t], and no date constraint at all exactly when
    neither parameter gives a valid bound.  So an invalid [from] with a valid
    [to] still applies the [to] bound, and the filter selects the exercises
    of the user whose date lies within the valid bounds. *)
Theorem logs_filter_bounds (env : Env) (user : User) (from to : option string) :
  exists q,
    buildQuery env user (field from) (field to) = inr q
    /\ q_userId q = user_id user
    /\ (forall t, (exists r, q_date q = Some r /\ gte r = Some t)
                  <-> validDate env from = Some t)
    /\ (forall t, (exists r, q_date q = Some r /\ lte r = Some t)
                  <-> validDate env to = Some t)
    /\ (q_date q = None
        <-> validDate env from = None /\ validDate env to = None)
    /\ (forall t, validDate env from = None -> validDate env to = Some t ->
                  q_date q = Some (mkDateRange None (Some t)))
    /\ (forall e, matches q e
                  = (ex_userId e =? user_id user)%string
                    && match validDate env from with
                       | Some a => a <=? ex_date e
                       | None => true
                       end
                    && match validDate env to with
                       | Some b => ex_date e <=? b
                       | None => true
                       end).
Proof.
  eexists. split; [ apply buildQuery_field | ].
  cbn [q_userId q_date].
  destruct (validDate env from) as [a | ], (validDate env to) as [b | ].
  all: repeat split; try reflexivity; try discriminate.
  all: try (intros (r & R & G); inversion R; subst; cbn in G; congruence).
  all: try (intros E; inversion E; subst; eexists; split; reflexivity).
  all: try (intros [? ?]; discriminate).
  all: try (intros t ? E; inversion E; reflexivity).
  all: try (intros e; unfold matches, inRange; cbn;
            rewrite ?andb_true_r, <- ?andb_assoc; reflexivity).
  all: try (intros (r & R & G); discriminate R).
Qed.

Lemma logs_filter_bounds_witness :
  exists q,
    buildQuery sampleEnv sampleUser (field (Some "yesterday"))
      (field (Some "2023-01-16")) = inr q
    /\ q_date q = Some (mkDateRange None (Some 1673827200000)).
Proof.
  destruct (logs_filter_bounds sampleEnv sampleUser (Some "yesterday")
              (Some "2023-01-16")) as (q & B & _ & _ & _ & _ & P & _).
  exists q. split; [ exact B | ].
  apply P; reflexivity.
Defined.

(** ** Order, limit and count of the logs *)

Lemma parseInt_undefined : parseInt JUndefined = inr None.
Proof. reflexivity. Qed.

(** C2: a successful List Logs response carries the exercises that match
    the filter, in ascending order of date; when [limit] parses as a
    positive integer [n] it carries the first [n] of them in that order, and
    when [limit] is absent, is not a number or is not positive it carries
    all of them. *)
Theorem logs_sorted_limited env _id from to limit w resp w' :
  app env (GetLogs _id from to limit) w = (resp, w') ->
  status resp = 200 ->
  exists user q lim full,
    userOf env (db w) _id = Some user
    /\ buildQuery env user from to = inr q
    /\ parseInt limit = inr lim
    /\ (limit = JUndefined -> lim = None)
    /\ Permutation full (filter (matches q) (exercises (db w)))
    /\ StronglySorted dateLe full
    /\ member "log" (body resp)
       = Some (JsonArray (map (logEntry env)
                 match lim with
                 | Some n => if 0 <? n then firstn (Z.to_nat n) full else full
                 | None => full
                 end)).
Proof.
  intros E S.
  destruct (getLogs_success _ _ _ _ _ _ _ _ E S)
    as (user & q & lim & U & Q & L & _ & R).
  exists user, q, lim, (sortByDate (filter (matches q) (exercises (db w)))).
  repeat split; auto using sortByDate_perm, sortByDate_ascending.
  - intros ->. rewrite parseInt_undefined in L. inversion L. reflexivity.
  - rewrite R. cbn. destruct lim as [n | ]; cbn; [ | reflexivity ].
    destruct (0 <? n); reflexivity.
Qed.

Lemma logs_sorted_limited_witness :
  exists full,
    Permutation full (exercises sampleStore)
    /\ StronglySorted dateLe full
    /\ member "log"
         (body (fst (app sampleEnv
                       (GetLogs "65536f0a0000000000000001" JUndefined
                          JUndefined (JStr "2")) sampleWorld)))
       = Some (JsonArray (map (logEntry sampleEnv) (firstn 2 full))).
Proof.
  destruct (logs_sorted_limited sampleEnv "65536f0a0000000000000001"
              JUndefined JUndefined (JStr "2") sampleWorld _ _
              (surjective_pairing _) eq_refl)
    as (user & q & lim & full & U & Q & L & _ & P & S & R).
  inversion U; subst user. inversion Q; subst q. inversion L; subst lim.
  exists full. repeat split; assumption.
Defined.

Lemma length_applyLimit (lim : option Z) (l : list Exercise) :
  List.length (applyLimit lim l)
  = match lim with
    | Some n => Nat.min (Z.to_nat n) (List.length l)
    | None => List.length l
    end.
Proof.
  destruct lim as [n | ]; cbn; [ apply length_firstn | reflexivity ].
Qed.

(** C3: in a successful List Logs response, [count] is the length of the
    returned [log] array, which is the number of matching exercises after
    the limit is applied; with [limit=1] and three matching exercises the
    log has exactly one entry, and [count] is 1. *)
Theorem logs_count env _id from to limit w resp w' :
  app env (GetLogs _id from to limit) w = (resp, w') ->
  status resp = 200 ->
  exists user q lim entries,
    userOf env (db w) _id = Some user
    /\ buildQuery env user from to = inr q
    /\ parseInt limit = inr lim
    /\ member "log" (body resp) = Some (JsonArray entries)
    /\ member "count" (body resp)
       = Some (JsonNumber (Z.of_nat (List.length entries)))
    /\ (let matching := filter (matches q) (exercises (db w)) in
        List.length entries
        = match limitArg lim with
          | Some n => Nat.min (Z.to_nat n) (List.length matching)
          | None => List.length matching
          end)
    /\ (limit = JStr "1" ->
        List.length (filter (matches q) (exercises (db w))) = 3%nat ->
        List.length entries = 1%nat
        /\ member "count" (body resp) = Some (JsonNumber 1)).
Proof.
  intros E S.
  destruct (getLogs_success _ _ _ _ _ _ _ _ E S)
    as (user & q & lim & U & Q & L & _ & R).
  cbv zeta in R.
  set (exs := applyLimit (limitArg lim)
                (sortByDate (filter (matches q) (exercises (db w))))) in *.
  assert (Len : List.length (map (logEntry env) exs)
                = match limitArg lim with
                  | Some n =>
                      Nat.min (Z.to_nat n)
                        (List.length (filter (matches q) (exercises (db w))))
                  | None => List.length (filter (matches q) (exercises (db w)))
                  end).
  { rewrite length_map. unfold exs. rewrite length_applyLimit.
    rewrite (Permutation_length (sortByDate_perm _)). reflexivity. }
  exists user, q, lim, (map (logEntry env) exs).
  rewrite R.
  split; [ exact U | ]. split; [ exact Q | ]. split; [ exact L | ].
  split; [ reflexivity | ]. split; [ reflexivity | ].
  split; [ exact Len | ].
  intros -> L3. cbn in L. inversion L; subst lim.
  cbn [member body res_json lookup String.eqb Ascii.eqb Bool.eqb].
  rewrite Len, L3. split; reflexivity.
Qed.

Lemma logs_count_witness :
  let resp := fst (app sampleEnv
                     (GetLogs "65536f0a0000000000000001" JUndefined JUndefined
                        (JStr "1")) sampleWorld) in
  member "count" (body resp) = Some (JsonNumber 1)
  /\ member "log" (body resp)
     = Some (JsonArray
               [JsonObject [("description", JsonString "run");
                            ("duration", JsonNumber 30);
                            ("date", JsonString "Sun Jan 15 2023")]]).
Proof.
  destruct (logs_count sampleEnv "65536f0a0000000000000001"
              JUndefined JUndefined (JStr "1") sampleWorld _ _
              (surjective_pairing _) eq_refl)
    as (user & q & lim & entries & U & Q & L & Elog & _ & _ & One).
  inversion U; subst user. inversion Q; subst q.
  destruct (One eq_refl eq_refl) as [_ C].
  split; [ exact C | reflexivity ].
Defined.

(** ** Creating an exercise *)

(** C4: in a successful Create Exercise response, [_id] is the id of the
    user the request refers to, not the id of the exercise just created,
    while [description], [duration] and [date] are those of the created
    exercise. *)
Theorem exercise_response_id env _id description duration date w resp w' :
  app env (PostExercises _id description duration date) w = (resp, w') ->
  status resp = 200 ->
  exists user ex,
    userOf env (db w) _id = Some user
    /\ exercises (db w') = exercises (db w) ++ [ex]
    /\ ex_id ex = newId env
    /\ ex_userId ex = user_id user
    /\ member "_id" (body resp) = Some (JsonString (user_id user))
    /\ (ex_id ex <> user_id user ->
        member "_id" (body resp) <> Some (JsonString (ex_id ex)))
    /\ member "description" (body resp)
       = Some (JsonString (ex_description ex))
    /\ member "duration" (body resp) = Some (JsonNumber (ex_duration ex))
    /\ member "date" (body resp)
       = Some (JsonString (toDateString env (Some (ex_date ex)))).
Proof.
  intros E S.
  destruct (postExercises_success _ _ _ _ _ _ _ _ E S)
    as (user & s & dur & d & U & _ & _ & _ & _ & W & R).
  exists user, (mkExercise (newId env) (user_id user) (trim s) dur d).
  rewrite W, R. cbn.
  repeat match goal with |- _ /\ _ => split end; auto.
  intros N Eq. apply N. inversion Eq. reflexivity.
Qed.

Lemma exercise_response_id_witness :
  let out := app sampleEnv
               (PostExercises "65536f0a0000000000000001" (JStr "test run")
                  (JNum 30) (JStr "2023-01-15")) sampleWorld in
  member "_id" (body (fst out))
  = Some (JsonString "65536f0a0000000000000001")
  /\ exists ex, exercises (db (snd out)) = exercises sampleStore ++ [ex]
                /\ ex_id ex = "65536f0a0000000000000009".
Proof.
  destruct (exercise_response_id sampleEnv "65536f0a0000000000000001"
              (JStr "test run") (JNum 30) (JStr "2023-01-15") sampleWorld _ _
              (surjective_pairing _) eq_refl)
    as (user & ex & U & W & I & _ & R & _).
  inversion U; subst user.
  split; [ exact R | ]. exists ex. split; assumption.
Defined.

(** C5: when the id of a Create Exercise request is the id of no user (the
    lookup is answered, and finds nobody), the response is the 400
    [unknown userId], whatever [description], [duration] and [date] are:
    the user is looked up before any field is examined.  Nothing is
    written. *)
Theorem exercise_unknown_user env _id oid description duration date w :
  castObjectId env _id = Some oid ->
  rejects env UserFindById = false ->
  find (fun u => (user_id u =? oid)%string) (users (db w)) = None ->
  fst (app env (PostExercises _id description duration date) w)
  = res_status_json 400 (errorBody "unknown userId")
  /\ db (snd (app env (PostExercises _id description duration date) w)) = db w.
Proof.
  intros C R F. run. rewrite C. run. rewrite R. run. rewrite F.
  split; reflexivity.
Qed.

Lemma exercise_unknown_user_witness :
  fst (app sampleEnv
         (PostExercises "65536f0a00000000000000ff" (JStr "   ") (JStr "soon")
            (JStr "never")) sampleWorld)
  = res_status_json 400 (errorBody "unknown userId").
Proof.
  apply (exercise_unknown_user sampleEnv "65536f0a00000000000000ff"
           "65536f0a00000000000000ff" (JStr "   ") (JStr "soon")
           (JStr "never") sampleWorld); reflexivity.
Defined.

Lemma exerciseDate_field (env : Env) (date : option string) :
  exerciseDate env (field date)
  = inr (Some match validDate env date with
              | Some t => t
              | None => now env
              end).
Proof.
  destruct date as [s | ]; cbn; [ | reflexivity ].
  unfold exerciseDate. cbn [Date_new ToBoolean].
  destruct s as [ | c r]; [ reflexivity | ].
  cbn [String.eqb negb orb].
  destruct (Date_parse env (String c r)); reflexivity.
Qed.

(** Any other falsy value ([null], [false], [0]) stands for the current
    date as well. *)
Lemma exerciseDate_falsy (env : Env) (v : JsValue) :
  ToBoolean v = false -> exerciseDate env v = inr (Some (now env)).
Proof.
  unfold exerciseDate.
  destruct v; cbn [ToBoolean Date_new]; intros F;
    try discriminate F; rewrite ?F; reflexivity.
Qed.

(** C6: in Create Exercise, a [date] field that is absent or does not parse
    as a valid date stands for the current date: the request then behaves
    exactly as the request without the field; and on success the stored and
    returned date is the parsed date when there is a valid one, and the
    current date otherwise. *)
Theorem exercise_date_default env _id description duration
    (date : option string) w :
  (validDate env date = None ->
   app env (PostExercises _id description duration (field date)) w
   = app env (PostExercises _id description duration JUndefined) w)
  /\ (forall resp w',
        app env (PostExercises _id description duration (field date)) w
        = (resp, w') ->
        status resp = 200 ->
        let d := match validDate env date with
                 | Some t => t
                 | None => now env
                 end in
        (exists ex, exercises (db w') = exercises (db w) ++ [ex]
                    /\ ex_date ex = d)
        /\ member "date" (body resp)
           = Some (JsonString (toDateString env (Some d)))).
Proof.
  split.
  - intros V. cbn [app]. unfold postExercises.
    rewrite (exerciseDate_field env date), V.
    change JUndefined with (field None).
    rewrite (exerciseDate_field env None). reflexivity.
  - intros resp w' E S.
    destruct (postExercises_success _ _ _ _ _ _ _ _ E S)
      as (user & s & dur & d & _ & _ & _ & _ & D & W & R).
    rewrite exerciseDate_field in D. inversion D; subst d.
    rewrite W, R. cbn. split; [ | reflexivity ].
    eexists. split; reflexivity.
Qed.

Lemma exercise_date_default_witness :
  app sampleEnv
    (PostExercises "65536f0a0000000000000001" (JStr "test run") (JNum 30)
       (JStr "someday")) sampleWorld
  = app sampleEnv
      (PostExercises "65536f0a0000000000000001" (JStr "test run") (JNum 30)
         JUndefined) sampleWorld
  /\ member "date"
       (body (fst (app sampleEnv
                     (PostExercises "65536f0a0000000000000001"
                        (JStr "test run") (JNum 30) (JStr "someday"))
                     sampleWorld)))
     = Some (JsonString "Tue Nov 14 2023").
Proof.
  destruct (exercise_date_default sampleEnv "65536f0a0000000000000001"
              (JStr "test run") (JNum 30) (Some "someday") sampleWorld)
    as [Same Stored].
  split; [ apply Same; reflexivity | ].
  destruct (Stored _ _ (surjective_pairing _) eq_refl) as [_ D].
  exact D.
Defined.

(** ** Rendering dates *)

Lemma In_firstn {A : Type} (n : nat) (l : list A) (x : A) :
  In x (firstn n l) -> In x l.
Proof.
  revert l; induction n as [ | n IH]; intros [ | y r]; cbn; try tauto.
  intros [E | I]; [ left; exact E | right; apply IH; exact I ].
Qed.

Lemma DateString_Day (t t' : Z) : Day t = Day t' -> DateString t = DateString t'.
Proof.
  unfold DateString, WeekDay, DateFromTime, MonthFromTime, InLeapYear,
    DayWithinYear, YearFromTime.
  intros ->. reflexivity.
Qed.

Lemma toDateString_canonical (env : Env) (t : Z) :
  canonicalDate (toDateString env (Some t)).
Proof. apply DateString_canonical. Qed.

Lemma member_date (a b c d e : Json) :
  member "date"
    (JsonObject [("_id", a); ("username", b); ("description", c);
                 ("duration", d); ("date", e)]) = Some e.
Proof. reflexivity. Qed.

Lemma logEntry_date (env : Env) (e : Exercise) :
  member "date" (logEntry env e)
  = Some (JsonString (toDateString env (Some (ex_date e)))).
Proof. reflexivity. Qed.

(** The claim of C7 does not hold as it is written: on a server whose local
    time is five hours west of UTC, the exercise created with the date
    ["2023-01-15"] is rendered as ["Sat Jan 14 2023"]. *)
Lemma date_rendering_west :
  let resp := fst (app westEnv
                     (PostExercises "65536f0a0000000000000001"
                        (JStr "test run") (JNum 30) (JStr "2023-01-15"))
                     sampleWorld) in
  status resp = 200
  /\ member "date" (body resp) = Some (JsonString "Sat Jan 14 2023")
  /\ member "date" (body resp) <> Some (JsonString "Sun Jan 15 2023").
Proof.
  vm_compute. repeat split; discriminate.
Qed.

(** C7 (amended): every date field of a response, that of Create Exercise
    and that of each entry of List Logs, is the stored date rendered in the
    local time of the server in the form [<Weekday> <Month> <Day> <Year>];
    an exercise created with the date ["2023-01-15"] is rendered as
    ["Sun Jan 15 2023"] when the local time zone is UTC or ahead of it by
    less than a day. *)
Theorem date_rendering env w :
  (forall _id description duration date resp w',
      app env (PostExercises _id description duration date) w = (resp, w') ->
      status resp = 200 ->
      exists ex,
        exercises (db w') = exercises (db w) ++ [ex]
        /\ member "date" (body resp)
           = Some (JsonString (DateString (LocalTime env (ex_date ex))))
        /\ canonicalDate (DateString (LocalTime env (ex_date ex))))
  /\ (forall _id from to limit resp w',
         app env (GetLogs _id from to limit) w = (resp, w') ->
         status resp = 200 ->
         exists exs,
           member "log" (body resp) = Some (JsonArray (map (logEntry env) exs))
           /\ incl exs (exercises (db w))
           /\ forall e, In e exs ->
                member "date" (logEntry env e)
                = Some (JsonString (DateString (LocalTime env (ex_date e))))
                /\ canonicalDate (DateString (LocalTime env (ex_date e))))
  /\ (0 <= LocalTZA env 1673740800000 < msPerDay ->
      forall _id description duration resp w',
        app env (PostExercises _id description duration (JStr "2023-01-15")) w
        = (resp, w') ->
        status resp = 200 ->
        member "date" (body resp) = Some (JsonString "Sun Jan 15 2023")).
Proof.
  split; [ | split ].
  - intros _id description duration date resp w' E S.
    destruct (postExercises_success _ _ _ _ _ _ _ _ E S)
      as (user & s & dur & d & _ & _ & _ & _ & _ & W & R).
    eexists. rewrite W, R. cbn [exercises].
    split; [ reflexivity | ].
    split; [ reflexivity | apply DateString_canonical ].
  - intros _id from to limit resp w' E S.
    destruct (getLogs_success _ _ _ _ _ _ _ _ E S)
      as (user & q & lim & _ & _ & _ & _ & R).
    eexists. rewrite R. split; [ reflexivity | ]. split.
    + intros e I.
      assert (I' : In e (sortByDate (filter (matches q) (exercises (db w))))).
      { destruct (limitArg lim); cbn in I; [ | exact I ].
        eapply In_firstn; exact I. }
      apply (Permutation_in _ (sortByDate_perm _)) in I'.
      apply filter_In in I'. tauto.
    + intros e _. split; [ reflexivity | apply DateString_canonical ].
  - intros Z0 _id description duration resp w' E S.
    destruct (postExercises_success _ _ _ _ _ _ _ _ E S)
      as (user & s & dur & d & _ & _ & _ & _ & D & _ & R).
    change (JStr "2023-01-15") with (field (Some "2023-01-15")) in D.
    rewrite exerciseDate_field in D.
    change (validDate env (Some "2023-01-15")) with (Some 1673740800000) in D.
    inversion D; subst d.
    rewrite R. cbn [body res_json]. rewrite member_date.
    unfold toDateString, LocalTime. do 2 f_equal.
    transitivity (DateString 1673740800000); [ | vm_compute; reflexivity ].
    apply DateString_Day. unfold Day, msPerDay in *.
    Z.div_mod_to_equations. lia.
Qed.

Lemma date_rendering_witness :
  member "date"
    (body (fst (app sampleEnv
                  (PostExercises "65536f0a0000000000000001" (JStr "test run")
                     (JNum 30) (JStr "2023-01-15")) sampleWorld)))
  = Some (JsonString "Sun Jan 15 2023").
Proof.
  destruct (date_rendering sampleEnv sampleWorld) as (_ & _ & Ex).
  apply (Ex ltac:(cbn; unfold msPerDay; lia) "65536f0a0000000000000001"
           (JStr "test run") (JNum 30) _ _ (surjective_pairing _) eq_refl).
Defined.

(** ** Reading the duration *)

Lemma parseDigits_value (s : string) (acc : Z) :
  parseDigits s acc
  = acc * 10 ^ Z.of_nat (List.length (leadingDigits s))
    + decimalValue (leadingDigits s).
Proof.
  revert acc; induction s as [ | c r IH]; intros acc; cbn [parseDigits leadingDigits].
  - cbn. lia.
  - destruct (digitValue c) as [d | ].
    + rewrite IH. cbn [List.length decimalValue].
      rewrite Nat2Z.inj_succ, Z.pow_succ_r by lia. lia.
    + cbn. lia.
Qed.

(** [parseInt(s, 10)] reads [s] in base 10. *)
Lemma parseInt10_base10 (s : string) : parseInt10 s = base10 s.
Proof.
  unfold parseInt10, base10.
  destruct (signOf (trimStart s)) as [sign rest].
  destruct rest as [ | c r]; [ reflexivity | ].
  cbn [leadingDigits]. rewrite parseDigits_value. cbn [leadingDigits].
  destruct (digitValue c) as [d | ]; [ | reflexivity ].
  reflexivity.
Qed.

(** C8: for an existing user and a description that is not blank, Create
    Exercise answers with the 400 of an invalid input exactly when
    [parseInt(duration, 10)] is [NaN]; and [parseInt] reads the text of the
    duration in base 10: leading white space, an optional sign, then
    digits, and it gives [NaN] exactly when no digit stands there. *)
Theorem exercise_invalid_duration env _id oid user s duration date w :
  castObjectId env _id = Some oid ->
  rejects env UserFindById = false ->
  find (fun u => (user_id u =? oid)%string) (users (db w)) = Some user ->
  trim s <> "" ->
  (fst (app env (PostExercises _id (JStr s) duration date) w)
   = res_status_json 400
       (errorBody
          "description and duration required (duration must be a number)")
   <-> parseInt duration = inr None)
  /\ (forall text, ToString duration = inr text ->
        parseInt duration = inr (base10 text)).
Proof.
  intros C R F T.
  assert (B : (trim s =? "")%string = false).
  { destruct (String.eqb_spec (trim s) ""); [ contradiction | reflexivity ]. }
  assert (B0 : (s =? "")%string = false).
  { destruct (String.eqb_spec s ""); [ subst s; contradiction T | ];
      reflexivity. }
  split.
  - run. rewrite C. run. rewrite R. run. rewrite F.
    destruct (parseInt duration) as [e | [n | ]] eqn:P; run;
      cbn [call_trim ToBoolean]; rewrite ?B0; cbn [negb]; run;
      cbn [call_trim ToBoolean]; rewrite ?B; cbn [negb orb Number_isNaN].
    + split; intros H; discriminate H.
    + split; [ | intros H; discriminate H ].
      split_run; cbn; intros H; discriminate H.
    + split; reflexivity.
  - intros text E. unfold parseInt. rewrite E, parseInt10_base10. reflexivity.
Qed.

Lemma exercise_invalid_duration_witness :
  fst (app sampleEnv
         (PostExercises "65536f0a0000000000000001" (JStr "test run")
            (JStr "half an hour") JUndefined) sampleWorld)
  = res_status_json 400
      (errorBody
         "description and duration required (duration must be a number)").
Proof.
  apply (exercise_invalid_duration sampleEnv "65536f0a0000000000000001"
           "65536f0a0000000000000001" sampleUser "test run"
           (JStr "half an hour") JUndefined sampleWorld);
    try reflexivity.
  vm_compute. discriminate.
Defined.

(** ** Failures and writes *)

Ltac name_calls :=
  match goal with
  | |- exists calls, ?a :: ?b :: trace ?w = calls ++ trace ?w /\ _ =>
      exists [a; b]
  | |- exists calls, ?a :: trace ?w = calls ++ trace ?w /\ _ => exists [a]
  | |- exists calls, trace ?w = calls ++ trace ?w /\ _ => exists []
  end.

(** C9: a request that fails, with a 400 or with a 500, leaves the database
    as it was.  A handler calls a write of the database at most once; it
    does so only when every check of the request has passed, so a 400 is
    never accompanied by a write; and when the answer is a 500 the write, if
    it was reached, is the call that the database rejected. *)
Theorem failure_leaves_store env r w :
  exists calls,
    trace (snd (app env r w)) = calls ++ trace w
    /\ (List.length (writes calls) <= 1)%nat
    /\ (status (fst (app env r w)) <> 200 -> db (snd (app env r w)) = db w)
    /\ (status (fst (app env r w)) = 400 -> writes calls = [])
    /\ (status (fst (app env r w)) = 500 ->
        forall c, In c (writes calls) -> rejects env c = true)
    /\ (writes calls <> [] -> validated env (db w) r).
Proof.
  destruct r as [username | | _id description duration date
                | _id from to limit];
    split_run; cbn [fst snd trace db status]; name_calls;
    (split; [ reflexivity | ]);
    (split; [ cbn; lia | ]);
    (split; [ intros N; try reflexivity; exfalso; apply N; reflexivity | ]);
    (split; [ intros E; try discriminate E; reflexivity | ]);
    (split;
     [ intros E c I; try discriminate E; cbn in I;
       try contradiction; destruct I as [<- | []]; assumption | ]);
    intros N; try (exfalso; apply N; reflexivity); clear N;
    repeat match goal with
           | H : call_trim _ = inr _ |- _ =>
               destruct (call_trim_inr _ _ H) as (text & -> & ->); clear H
           | H : (trim (trim _) =? "")%string = false |- _ =>
               rewrite trim_trim in H; apply eqb_empty_false in H
           end;
    cbn [validated]; unfold userOf;
    repeat match goal with
           | H : castObjectId _ _ = Some _ |- _ => rewrite H; clear H
           end.
  all: try (cbn in *; discriminate).
  all: try (eexists; split; [ reflexivity | assumption ]).
  all: eexists _, _, _, _; repeat split; eauto.
Qed.

Lemma failure_leaves_store_witness :
  let out := app downEnv
               (PostExercises "65536f0a0000000000000001" (JStr "test run")
                  (JNum 30) JUndefined) sampleWorld in
  status (fst out) = 500 /\ db (snd out) = sampleStore.
Proof.
  destruct (failure_leaves_store downEnv
              (PostExercises "65536f0a0000000000000001" (JStr "test run")
                 (JNum 30) JUndefined) sampleWorld)
    as (calls & _ & _ & Same & _).
  split; [ reflexivity | ].
  apply Same. discriminate.
Defined.

(** ** What a response shows *)

Lemma userOf_In env s _id user :
  userOf env s _id = Some user -> In user (users s).
Proof.
  unfold userOf. destruct (castObjectId env _id); [ | discriminate ].
  intros F. apply find_some in F. tauto.
Qed.

Lemma logEntries_keys env (exs : list Exercise) :
  Forall (fun e => keys e = ["description"; "duration"; "date"])
    (map (logEntry env) exs).
Proof.
  induction exs as [ | e r IH]; cbn [map]; constructor; [ reflexivity | exact IH ].
Qed.

Lemma logEntries_allKeys env (exs : list Exercise) (k : string) :
  In k (flat_map allKeys (map (logEntry env) exs)) ->
  In k ["description"; "duration"; "date"].
Proof.
  induction exs as [ | e r IH]; cbn [map flat_map]; [ intros [] | ].
  rewrite in_app_iff. intros [I | I]; [ | exact (IH I) ].
  cbn in I. cbn. tauto.
Qed.

Lemma logEntries_ids env (exs : list Exercise) :
  flat_map (membersNamed "_id") (map (logEntry env) exs) = [].
Proof.
  induction exs as [ | e r IH]; cbn [map flat_map]; [ reflexivity | ].
  rewrite IH. reflexivity.
Qed.

Lemma userList_allKeys (us : list User) (k : string) :
  In k (flat_map allKeys
          (map (fun u => JsonObject
                  [("_id", JsonString (user_id u));
                   ("username", JsonString (user_username u))]) us)) ->
  In k ["_id"; "username"].
Proof.
  induction us as [ | u r IH]; cbn [map flat_map]; [ intros [] | ].
  rewrite in_app_iff. intros [I | I]; [ | exact (IH I) ].
  cbn in I. cbn. tauto.
Qed.

Lemma userList_ids (us : list User) (v : Json) :
  In v (flat_map (membersNamed "_id")
          (map (fun u => JsonObject
                  [("_id", JsonString (user_id u));
                   ("username", JsonString (user_username u))]) us)) ->
  exists u, In u us /\ v = JsonString (user_id u).
Proof.
  induction us as [ | u r IH]; cbn [map flat_map]; [ intros [] | ].
  rewrite in_app_iff. intros [I | I].
  - cbn in I. destruct I as [<- | []]. exists u. cbn. auto.
  - destruct (IH I) as (u' & I' & E). exists u'. cbn. auto.
Qed.

(** C10: no response shows the id of an exercise or its [userId]: no member
    of a response is named [userId], and every [_id] a response carries is
    the id of a user of the database.  An entry of the log of List Logs has
    exactly the members [description], [duration] and [date]; the answer of
    Create Exercise has the members [_id], [username], [description],
    [duration] and [date], and its [_id] is the id of the user. *)
Theorem responses_hide_exercise_ids env r w :
  ~ In "userId" (allKeys (body (fst (app env r w))))
  /\ (forall v, In v (membersNamed "_id" (body (fst (app env r w)))) ->
        exists u, In u (users (db (snd (app env r w))))
                  /\ v = JsonString (user_id u))
  /\ (forall _id from to limit,
        r = GetLogs _id from to limit ->
        status (fst (app env r w)) = 200 ->
        exists entries,
          member "log" (body (fst (app env r w))) = Some (JsonArray entries)
          /\ Forall (fun e => keys e = ["description"; "duration"; "date"])
               entries)
  /\ (forall _id description duration date,
        r = PostExercises _id description duration date ->
        status (fst (app env r w)) = 200 ->
        keys (body (fst (app env r w)))
        = ["_id"; "username"; "description"; "duration"; "date"]
        /\ exists user,
             userOf env (db w) _id = Some user
             /\ membersNamed "_id" (body (fst (app env r w)))
                = [JsonString (user_id user)]).
Proof.
  split; [ | split; [ | split ] ].
  - destruct r; split_run;
      cbn [fst body allKeys errorBody flat_map fst snd app];
      try (cbn; intuition discriminate).
    + intros I. apply userList_allKeys in I. cbn in I. intuition discriminate.
    + intros [E | [E | [E | [E | I]]]]; try discriminate.
      rewrite app_nil_r in I. apply logEntries_allKeys in I.
      cbn in I. intuition discriminate.
  - destruct r; split_run;
      cbn [fst snd body membersNamed errorBody flat_map app String.eqb
           Ascii.eqb Bool.eqb db users];
      try (cbn; intuition discriminate).
    + intros v [<- | []]. eexists. split; [ | reflexivity ].
      apply in_or_app. right. left. reflexivity.
    + apply userList_ids.
    + intros v [<- | []]. exists u. split; [ | reflexivity ].
      match goal with H : find _ _ = Some _ |- _ => apply find_some in H end.
      tauto.
    + rewrite logEntries_ids. intros v [<- | []].
      exists u. split; [ | reflexivity ].
      match goal with H : find _ _ = Some _ |- _ => apply find_some in H end.
      tauto.
  - intros _id from to limit -> S.
    destruct (getLogs_success _ _ _ _ _ _ _ _ (surjective_pairing _) S)
      as (user & q & lim & _ & _ & _ & _ & R).
    rewrite R. eexists. split; [ reflexivity | apply logEntries_keys ].
  - intros _id description duration date -> S.
    destruct (postExercises_success _ _ _ _ _ _ _ _ (surjective_pairing _) S)
      as (user & s & dur & d & U & _ & _ & _ & _ & _ & R).
    rewrite R. split; [ reflexivity | ].
    exists user. split; [ exact U | reflexivity ].
Qed.

Lemma responses_hide_exercise_ids_witness :
  keys (body (fst (app sampleEnv
                     (PostExercises "65536f0a0000000000000001"
                        (JStr "test run") (JNum 30) (JStr "2023-01-15"))
                     sampleWorld)))
  = ["_id"; "username"; "description"; "duration"; "date"].
Proof.
  destruct (responses_hide_exercise_ids sampleEnv
              (PostExercises "65536f0a0000000000000001" (JStr "test run")
                 (JNum 30) (JStr "2023-01-15")) sampleWorld)
    as (_ & _ & _ & K).
  destruct (K _ _ _ _ eq_refl eq_refl) as [Keys _].
  exact Keys.
Defined.

(** ** Requests that succeed *)

Lemma ToString_field (o : option string) : exists text, ToString (field o) = inr text.
Proof. destruct o; cbn; eauto. Qed.

Lemma parseInt_field (o : option string) : exists n, parseInt (field o) = inr n.
Proof.
  unfold parseInt. destruct (ToString_field o) as [text ->]. eauto.
Qed.

(** List Logs answers with a 200 whenever the user exists and the database
    answers. *)
Lemma getLogs_succeeds env _id oid user (from to limit : option string) w :
  castObjectId env _id = Some oid ->
  rejects env UserFindById = false ->
  find (fun u => (user_id u =? oid)%string) (users (db w)) = Some user ->
  rejects env ExerciseFind = false ->
  status (fst (app env (GetLogs _id (field from) (field to) (field limit)) w))
  = 200.
Proof.
  intros C R F R'. run. rewrite C. run. rewrite R. run. rewrite F.
  rewrite buildQuery_field. run.
  destruct (parseInt_field limit) as [n ->]. run. rewrite R'. reflexivity.
Qed.

(** Create Exercise answers with a 200 whenever the user exists, the
    description is not blank, the duration is a number and the database
    answers. *)
Lemma postExercises_succeeds env _id oid user s duration n
    (date : option string) w :
  castObjectId env _id = Some oid ->
  rejects env UserFindById = false ->
  find (fun u => (user_id u =? oid)%string) (users (db w)) = Some user ->
  trim s <> "" ->
  parseInt duration = inr (Some n) ->
  rejects env ExerciseCreate = false ->
  status (fst (app env (PostExercises _id (JStr s) duration (field date)) w))
  = 200.
Proof.
  intros C R F T P R'.
  assert (B : (trim s =? "")%string = false).
  { destruct (String.eqb_spec (trim s) ""); [ contradiction | reflexivity ]. }
  assert (B0 : (s =? "")%string = false).
  { destruct (String.eqb_spec s ""); [ subst s; contradiction T | ];
      reflexivity. }
  run. rewrite C. run. rewrite R. run. rewrite F, P. run.
  cbn [call_trim ToBoolean]. rewrite B0. cbn [negb]. run.
  cbn [call_trim ToBoolean]. rewrite B. cbn [negb orb Number_isNaN].
  rewrite exerciseDate_field. run. cbn [call_trim]. run.
  rewrite trim_trim, B. run. rewrite R'. reflexivity.
Qed.

(** * Further properties of the handlers *)

(** ** Creating and listing users *)

(** [POST /api/users] answers with the 400 [username required] exactly when
    [username] is missing, falsy or a text that is blank once trimmed; the
    database is then not even called. *)
Theorem user_blank_name env username w :
  (fst (app env (PostUsers username) w)
   = res_status_json 400 (errorBody "username required")
   <-> (ToBoolean username = false
        \/ exists s, username = JStr s /\ trim s = ""))
  /\ (status (fst (app env (PostUsers username) w)) = 400 ->
      snd (app env (PostUsers username) w) = w).
Proof.
  split; [ split | ].
  - split_run; cbn [fst]; intros E; try discriminate E.
    + left. apply negb_true_iff. assumption.
    + right.
      match goal with
      | H : call_trim _ = inr _ |- _ =>
          destruct (call_trim_inr _ _ H) as (t & -> & ->)
      end.
      exists t. split; [ reflexivity | ].
      match goal with
      | H : negb (ToBoolean (JStr _)) = true |- _ =>
          cbn in H; apply negb_true_iff, negb_false_iff in H;
          apply String.eqb_eq in H; exact H
      end.
  - intros [F | (s & -> & T)]; run.
    + rewrite F. reflexivity.
    + cbn [ToBoolean call_trim]. destruct (s =? "")%string; cbn [negb]; run;
        [ reflexivity | ].
      cbn [call_trim ToBoolean]. rewrite T. reflexivity.
  - split_run; cbn [fst snd status]; intros E; try discriminate E;
      destruct w; reflexivity.
Qed.

(** A missing name, [null], [0], [false], the empty text and a text of
    white space all read as blank. *)
Lemma user_blank_name_witness :
  fst (app sampleEnv (PostUsers (JStr "   ")) sampleWorld)
  = res_status_json 400 (errorBody "username required")
  /\ snd (app sampleEnv (PostUsers JUndefined) sampleWorld) = sampleWorld.
Proof.
  destruct (user_blank_name sampleEnv (JStr "   ") sampleWorld) as [[_ B] _].
  destruct (user_blank_name sampleEnv JUndefined sampleWorld) as [_ U].
  split.
  - apply B. right. exists "   ". split; reflexivity.
  - apply U. reflexivity.
Defined.

Lemma trim_nonblank (s : string) : trim s <> "" -> (s =? "")%string = false.
Proof.
  intros T. destruct (String.eqb_spec s "") as [E | E]; [ | reflexivity ].
  subst s. exfalso. apply T. reflexivity.
Qed.

Lemma eqb_false_of_neq (s : string) : s <> "" -> (s =? "")%string = false.
Proof.
  intros T. destruct (String.eqb_spec s ""); [ contradiction | reflexivity ].
Qed.

Ltac post_user T R :=
  run; cbn [ToBoolean call_trim];
  rewrite (trim_nonblank _ T); cbn [negb]; run;
  cbn [ToBoolean call_trim]; rewrite (eqb_false_of_neq _ T); cbn [negb]; run;
  cbn [call_trim]; run;
  rewrite trim_trim, (eqb_false_of_neq _ T); run; rewrite R.

(** [POST /api/users] with a name that is not blank, on a database that
    accepts the write: one user is appended, with the id the database gives
    and the trimmed name; nothing else changes, and the response shows that
    name and that id.  No other user stands in the way: a name already
    taken is accepted again. *)
Theorem user_created env s w :
  trim s <> "" ->
  rejects env UserCreate = false ->
  app env (PostUsers (JStr s)) w
  = (res_json (JsonObject [("username", JsonString (trim s));
                           ("_id", JsonString (newId env))]),
     mkWorld (mkStore (users (db w) ++ [mkUser (newId env) (trim s)])
                (exercises (db w)))
       (UserCreate :: trace w)).
Proof.
  intros T R. post_user T R. reflexivity.
Qed.

Lemma user_created_witness :
  users (db (snd (app sampleEnv (PostUsers (JStr "  fcc_test ")) sampleWorld)))
  = [sampleUser; mkUser "65536f0a0000000000000009" "fcc_test"].
Proof.
  rewrite (user_created sampleEnv "  fcc_test " sampleWorld);
    [ reflexivity | vm_compute; discriminate | reflexivity ].
Defined.

(** A user that was created is listed: after a successful
    [POST /api/users], [GET /api/users] answers, whenever the database
    answers, with an array that holds the new user, with its trimmed name
    and its id, after all the users that were there before. *)
Theorem user_created_then_listed env env' s w :
  trim s <> "" ->
  rejects env UserCreate = false ->
  rejects env' UserFind = false ->
  let w' := snd (app env (PostUsers (JStr s)) w) in
  exists before,
    fst (app env' GetUsers w')
    = res_json (JsonArray
        (before ++ [JsonObject [("_id", JsonString (newId env));
                                ("username", JsonString (trim s))]]))
    /\ fst (app env' GetUsers w) = res_json (JsonArray before).
Proof.
  intros T R R'. cbv zeta. post_user T R.
  cbn [snd]. run. rewrite R'. run. cbn [db users].
  rewrite map_app. cbn [map user_id user_username].
  eexists. split; reflexivity.
Qed.

Lemma user_created_then_listed_witness :
  fst (app sampleEnv GetUsers
         (snd (app sampleEnv (PostUsers (JStr "ada ")) sampleWorld)))
  = res_json (JsonArray
      [JsonObject [("_id", JsonString "65536f0a0000000000000001");
                   ("username", JsonString "fcc_test")];
       JsonObject [("_id", JsonString "65536f0a0000000000000009");
                   ("username", JsonString "ada")]]).
Proof.
  destruct (user_created_then_listed sampleEnv sampleEnv "ada " sampleWorld)
    as (before & L & B); [ vm_compute; discriminate | reflexivity.. | ].
  rewrite L. inversion B. reflexivity.
Defined.

(** A [username] that is truthy but is not a text (a number, [true], an
    array, an object) is not an invalid input for the handler: calling
    [trim] on it throws, and the answer is the 500 [server error], without
    any call to the database. *)
Theorem user_name_not_text env username w :
  ToBoolean username = true ->
  (forall s, username <> JStr s) ->
  app env (PostUsers username) w
  = (res_status_json 500 (errorBody "server error"), w).
Proof.
  intros T N. run. rewrite T. cbn [negb]. run.
  destruct username; cbn [call_trim]; try reflexivity.
  exfalso. apply (N s). reflexivity.
Qed.

Lemma user_name_not_text_witness :
  app sampleEnv (PostUsers (JNum 7)) sampleWorld
  = (res_status_json 500 (errorBody "server error"), sampleWorld).
Proof.
  apply (user_name_not_text sampleEnv (JNum 7) sampleWorld);
    [ reflexivity | discriminate ].
Defined.

(** ** Reading, and failing *)

(** The two [GET] handlers only read: whatever they answer, the database is
    as it was, and no write was called. *)
Theorem get_reads_only env r w :
  (r = GetUsers \/ exists _id from to limit, r = GetLogs _id from to limit) ->
  db (snd (app env r w)) = db w
  /\ exists calls,
       trace (snd (app env r w)) = calls ++ trace w /\ writes calls = [].
Proof.
  intros [-> | (_id & from & to & limit & ->)];
    split_run; cbn [snd db trace]; (split; [ reflexivity | ]);
    name_calls; split; reflexivity.
Qed.

Lemma get_reads_only_witness :
  db (snd (app sampleEnv
             (GetLogs "65536f0a0000000000000001" JUndefined JUndefined
                JUndefined) sampleWorld))
  = sampleStore.
Proof.
  apply (get_reads_only sampleEnv
           (GetLogs "65536f0a0000000000000001" JUndefined JUndefined
              JUndefined) sampleWorld).
  right. eexists _, _, _, _. reflexivity.
Defined.

(** [GET /api/users/:_id/logs] for an id that no user has: the answer is
    the 400 [unknown userId] whatever [from], [to] and [limit] are; they are
    not even looked at, and the exercises are not queried. *)
Theorem logs_unknown_user env _id oid from to limit w :
  castObjectId env _id = Some oid ->
  rejects env UserFindById = false ->
  find (fun u => (user_id u =? oid)%string) (users (db w)) = None ->
  app env (GetLogs _id from to limit) w
  = (res_status_json 400 (errorBody "unknown userId"),
     mkWorld (db w) (UserFindById :: trace w)).
Proof.
  intros C R F. run. rewrite C. run. rewrite R. run. rewrite F. reflexivity.
Qed.

Lemma logs_unknown_user_witness :
  fst (app sampleEnv
         (GetLogs "65536f0a00000000000000ff" (JObj None) (JStr "x")
            (JObj None)) sampleWorld)
  = res_status_json 400 (errorBody "unknown userId").
Proof.
  rewrite (logs_unknown_user sampleEnv "65536f0a00000000000000ff"
             "65536f0a00000000000000ff"); reflexivity.
Defined.

(** When the lookup of the user is rejected, because the id is not an
    ObjectId or because the database call fails, Create Exercise and List
    Logs both answer with the 500 [server error]; nothing else is asked of
    the database, and it is unchanged. *)
Theorem lookup_rejected env _id a b c w :
  castObjectId env _id = None \/ rejects env UserFindById = true ->
  forall r, r = PostExercises _id a b c \/ r = GetLogs _id a b c ->
  fst (app env r w) = res_status_json 500 (errorBody "server error")
  /\ db (snd (app env r w)) = db w
  /\ (trace (snd (app env r w)) = trace w
      \/ trace (snd (app env r w)) = UserFindById :: trace w).
Proof.
  intros H r [-> | ->]; run;
    destruct (castObjectId env _id) as [oid | ]; run;
    try (repeat split; auto; fail);
    destruct H as [H | H]; try discriminate H; rewrite H;
    repeat split; auto.
Qed.

Lemma lookup_rejected_witness :
  fst (app sampleEnv (GetLogs "abc" JUndefined JUndefined JUndefined)
         sampleWorld)
  = res_status_json 500 (errorBody "server error").
Proof.
  apply (lookup_rejected sampleEnv "abc" JUndefined JUndefined JUndefined
           sampleWorld (or_introl eq_refl) _ (or_intror eq_refl)).
Defined.

(** Every answer is a 200, a 400 or a 500; an answer that is not a 200
    carries a single member, [error], and for a 500 its text is always
    [server error]: no detail of the failure is shown. *)
Theorem error_answers env r w :
  (status (fst (app env r w)) = 200
   \/ status (fst (app env r w)) = 400
   \/ status (fst (app env r w)) = 500)
  /\ (status (fst (app env r w)) <> 200 ->
      exists msg, body (fst (app env r w)) = errorBody msg)
  /\ (status (fst (app env r w)) = 500 ->
      body (fst (app env r w)) = errorBody "server error").
Proof.
  destruct r; split_run; cbn [fst status body];
    (split; [ auto | ]);
    (split; [ intros N; try (exfalso; apply N; reflexivity); eauto | ]);
    intros E; try discriminate E; reflexivity.
Qed.

Lemma error_answers_witness :
  body (fst (app downEnv (PostUsers (JStr "ada")) sampleWorld))
  = errorBody "server error".
Proof.
  destruct (error_answers downEnv (PostUsers (JStr "ada")) sampleWorld)
    as (_ & _ & E).
  apply E. reflexivity.
Defined.

(** In Create Exercise for an existing user, a [description] that is truthy
    but is not a text makes [trim] throw: the answer is the 500
    [server error], not the 400 of an invalid input, and nothing is
    written. *)
Theorem exercise_description_not_text env _id oid user description duration
    date n w :
  castObjectId env _id = Some oid ->
  rejects env UserFindById = false ->
  find (fun u => (user_id u =? oid)%string) (users (db w)) = Some user ->
  parseInt duration = inr n ->
  ToBoolean description = true ->
  (forall s, description <> JStr s) ->
  app env (PostExercises _id description duration date) w
  = (res_status_json 500 (errorBody "server error"),
     mkWorld (db w) (UserFindById :: trace w)).
Proof.
  intros C R F P T N. run. rewrite C. run. rewrite R. run. rewrite F, P. run.
  rewrite T. cbn [negb]. run.
  destruct description; cbn [call_trim]; try reflexivity.
  exfalso. apply (N s). reflexivity.
Qed.

Lemma exercise_description_not_text_witness :
  fst (app sampleEnv
         (PostExercises "65536f0a0000000000000001" (JBool true) (JNum 30)
            JUndefined) sampleWorld)
  = res_status_json 500 (errorBody "server error").
Proof.
  rewrite (exercise_description_not_text sampleEnv "65536f0a0000000000000001"
             "65536f0a0000000000000001" sampleUser (JBool true) (JNum 30)
             JUndefined (Some 30) sampleWorld);
    try reflexivity; discriminate.
Defined.

(** ** What the database keeps *)

Lemma trimStart_trim (s : string) : trimStart (trim s) = trim s.
Proof.
  unfold trim.
  destruct (trimStart_head s) as [E | (c & r & E & W)]; rewrite E.
  - reflexivity.
  - destruct (trimEnd_head c r W) as [r' ->]. cbn [trimStart].
    rewrite W. reflexivity.
Qed.

Lemma trimEnd_trim (s : string) : trimEnd (trim s) = trim s.
Proof. unfold trim. apply trimEnd_trimEnd. Qed.

Lemma trimmedText_trim (s : string) : trim s <> "" -> trimmedText (trim s).
Proof.
  intros T. split; [ exact T | ].
  split; [ apply trimStart_trim | apply trimEnd_trim ].
Qed.

Lemma refersToUser_more_users (s : Store) (us : list User) (e : Exercise) :
  refersToUser s e ->
  refersToUser (mkStore (users s ++ us) (exercises s)) e.
Proof.
  intros (u & I & E). exists u. cbn [users]. split; [ | exact E ].
  apply in_or_app. left. exact I.
Qed.

Lemma refersToUser_more_exercises (s : Store) (es : list Exercise)
    (e : Exercise) :
  refersToUser s e -> refersToUser (mkStore (users s) es) e.
Proof. intros (u & I & E). exists u. auto. Qed.

(** No request leaves an exercise without its user: when every exercise of
    the database refers to a user of the database before a request, so it
    does after it, whatever the request and its outcome. *)
Theorem references_kept env r w :
  referencesHold (db w) -> referencesHold (db (snd (app env r w))).
Proof.
  unfold referencesHold. intros H.
  destruct r; split_run; cbn [snd db exercises users]; try exact H.
  all: first
    [ eapply Forall_impl; [ | exact H ];
      intros e; apply refersToUser_more_users
    | apply Forall_app; split;
      [ eapply Forall_impl; [ | exact H ];
        intros e; apply refersToUser_more_exercises
      | constructor; [ | constructor ];
        match goal with
        | F : find _ _ = Some ?u |- _ =>
            apply find_some in F; destruct F as [I _]; exists u
        end;
        split; [ exact I | reflexivity ] ] ].
Qed.

Lemma references_kept_witness :
  referencesHold
    (db (snd (app sampleEnv
                (PostExercises "65536f0a0000000000000001" (JStr "row")
                   (JStr "15") JUndefined) sampleWorld))).
Proof.
  apply references_kept.
  repeat constructor; exists sampleUser; split; cbn; auto.
Defined.

(** No request stores a blank or untrimmed text: when every name and every
    description of the database is a non-empty text without white space at
    its ends before a request, so it is after it. *)
Theorem texts_kept env r w :
  textsTrimmed (db w) -> textsTrimmed (db (snd (app env r w))).
Proof.
  unfold textsTrimmed. intros [HU HE].
  destruct r; split_run; cbn [snd db exercises users]; try (split; assumption).
  all: split; try assumption.
  all: apply Forall_app; (split; [ assumption | ]).
  all: constructor; [ | constructor ]; cbn [user_username ex_description].
  all: apply trimmedText_trim, eqb_empty_false; assumption.
Qed.

Lemma texts_kept_witness :
  textsTrimmed
    (db (snd (app sampleEnv (PostUsers (JStr "  grace hopper  "))
                sampleWorld))).
Proof.
  apply texts_kept.
  split; repeat constructor; cbn; discriminate.
Defined.

(** ** Logs and the exercises behind them *)

Lemma buildQuery_userId env user from to q :
  buildQuery env user from to = inr q -> q_userId q = user_id user.
Proof.
  unfold buildQuery.
  destruct (ToBoolean from || ToBoolean to).
  - destruct (dateBound env from) as [e | [lo | ]]; try discriminate;
      destruct (dateBound env to) as [e | [hi | ]]; try discriminate;
      intros E; inversion E; reflexivity.
  - intros E; inversion E; reflexivity.
Qed.

Lemma In_applyLimit (lim : option Z) (l : list Exercise) (e : Exercise) :
  In e (applyLimit lim l) -> In e l.
Proof.
  destruct lim as [n | ]; cbn; [ apply In_firstn | auto ].
Qed.

(** The log of a user holds exercises of that user only: whatever [from],
    [to] and [limit] are, every entry of a successful List Logs response
    renders an exercise of the database whose [userId] is the id of the
    user of the request. *)
Theorem logs_own_exercises env _id from to limit w resp w' :
  app env (GetLogs _id from to limit) w = (resp, w') ->
  status resp = 200 ->
  exists user exs,
    userOf env (db w) _id = Some user
    /\ member "log" (body resp) = Some (JsonArray (map (logEntry env) exs))
    /\ forall e, In e exs ->
         In e (exercises (db w)) /\ ex_userId e = user_id user.
Proof.
  intros E S.
  destruct (getLogs_success _ _ _ _ _ _ _ _ E S)
    as (user & q & lim & U & Q & _ & _ & R).
  eexists user, _. rewrite R.
  split; [ exact U | ]. split; [ reflexivity | ].
  intros e I. apply In_applyLimit in I.
  apply (Permutation_in _ (sortByDate_perm _)), filter_In in I.
  destruct I as [I M]. split; [ exact I | ].
  unfold matches in M. apply andb_prop in M. destruct M as [M _].
  apply String.eqb_eq in M. rewrite M.
  apply (buildQuery_userId _ _ _ _ _ Q).
Qed.

Lemma logs_own_exercises_witness :
  exists exs,
    member "log"
      (body (fst (app sampleEnv
                    (GetLogs "65536f0a0000000000000001" (JStr "2023-01-16")
                       JUndefined JUndefined) sampleWorld)))
    = Some (JsonArray (map (logEntry sampleEnv) exs))
    /\ forall e, In e exs -> ex_userId e = "65536f0a0000000000000001".
Proof.
  destruct (logs_own_exercises sampleEnv "65536f0a0000000000000001"
              (JStr "2023-01-16") JUndefined JUndefined sampleWorld _ _
              (surjective_pairing _) eq_refl)
    as (user & exs & U & L & O).
  inversion U; subst user.
  exists exs. split; [ exact L | ].
  intros e I. apply (O e I).
Defined.

Lemma StronglySorted_split (l1 l2 : list Exercise) :
  StronglySorted dateLe (l1 ++ l2) ->
  forall a b, In a l1 -> In b l2 -> dateLe a b.
Proof.
  induction l1 as [ | x r IH]; cbn; intros S a b Ia Ib; [ contradiction | ].
  inversion S as [ | ? ? Sr Hx]; subst.
  destruct Ia as [<- | Ia].
  - rewrite Forall_forall in Hx. apply Hx, in_or_app. right. exact Ib.
  - exact (IH Sr a b Ia Ib).
Qed.

(** A limit keeps the earliest exercises: with a positive [limit], the
    matching exercises split into those the log shows and those it leaves
    out, and none that is left out is dated before one that is shown. *)
Theorem logs_limit_keeps_earliest env _id from to limit n w resp w' :
  app env (GetLogs _id from to limit) w = (resp, w') ->
  status resp = 200 ->
  parseInt limit = inr (Some n) ->
  0 < n ->
  exists user q shown hidden,
    userOf env (db w) _id = Some user
    /\ buildQuery env user from to = inr q
    /\ Permutation (shown ++ hidden) (filter (matches q) (exercises (db w)))
    /\ member "log" (body resp) = Some (JsonArray (map (logEntry env) shown))
    /\ List.length shown
       = Nat.min (Z.to_nat n)
           (List.length (filter (matches q) (exercises (db w))))
    /\ forall a b, In a shown -> In b hidden -> ex_date a <= ex_date b.
Proof.
  intros E S L N.
  destruct (getLogs_success _ _ _ _ _ _ _ _ E S)
    as (user & q & lim & U & Q & L' & _ & R).
  rewrite L in L'. inversion L'; subst lim. clear L'.
  set (full := sortByDate (filter (matches q) (exercises (db w)))) in *.
  exists user, q, (firstn (Z.to_nat n) full), (skipn (Z.to_nat n) full).
  assert (A : applyLimit (limitArg (Some n)) full = firstn (Z.to_nat n) full).
  { cbn. destruct (Z.ltb_spec 0 n); [ reflexivity | lia ]. }
  rewrite A in R.
  split; [ exact U | ]. split; [ exact Q | ].
  split; [ rewrite firstn_skipn; apply sortByDate_perm | ].
  split; [ rewrite R; reflexivity | ].
  split.
  - rewrite length_firstn. unfold full.
    rewrite (Permutation_length (sortByDate_perm _)). reflexivity.
  - apply StronglySorted_split. rewrite firstn_skipn.
    apply sortByDate_ascending.
Qed.

Lemma logs_limit_keeps_earliest_witness :
  exists shown hidden,
    Permutation (shown ++ hidden) (exercises sampleStore)
    /\ List.length shown = 2%nat
    /\ forall a b, In a shown -> In b hidden -> ex_date a <= ex_date b.
Proof.
  destruct (logs_limit_keeps_earliest sampleEnv "65536f0a0000000000000001"
              JUndefined JUndefined (JStr "2") 2 sampleWorld _ _
              (surjective_pairing _) eq_refl eq_refl ltac:(lia))
    as (user & q & shown & hidden & U & Q & P & _ & Len & Ord).
  inversion U; subst user. inversion Q; subst q.
  exists shown, hidden. repeat split; assumption.
Defined.

Lemma filter_snoc_out (q : Query) (es : list Exercise) (e : Exercise) :
  matches q e = false ->
  filter (matches q) (es ++ [e]) = filter (matches q) es.
Proof.
  intros M. rewrite filter_app. cbn [filter]. rewrite M. apply app_nil_r.
Qed.

Lemma matches_other_user (q : Query) (e : Exercise) :
  ex_userId e <> q_userId q -> matches q e = false.
Proof.
  intros N. unfold matches.
  destruct (String.eqb_spec (ex_userId e) (q_userId q));
    [ contradiction | reflexivity ].
Qed.

Lemma find_user_id (oid : ObjectId) (us : list User) (u : User) :
  find (fun u => (user_id u =? oid)%string) us = Some u -> user_id u = oid.
Proof.
  intros F. apply find_some in F. destruct F as [_ E].
  apply String.eqb_eq. exact E.
Qed.

(** An exercise logged for one user does not show in the log of another:
    after a successful Create Exercise for the user of one id, List Logs
    for a different id answers exactly as it would have answered before,
    whatever its parameters. *)
Theorem exercise_leaves_other_logs env env' _id _id' description duration
    date from to limit w resp w' :
  app env (PostExercises _id description duration date) w = (resp, w') ->
  status resp = 200 ->
  castObjectId env' _id' <> castObjectId env _id ->
  fst (app env' (GetLogs _id' from to limit) w')
  = fst (app env' (GetLogs _id' from to limit) w).
Proof.
  intros E S N.
  destruct (postExercises_success _ _ _ _ _ _ _ _ E S)
    as (user & s & dur & d & U & _ & _ & _ & _ & W & _).
  unfold userOf in U.
  destruct (castObjectId env _id) as [oid | ] eqn:C; [ | discriminate U ].
  apply find_user_id in U.
  run. destruct (castObjectId env' _id') as [oid' | ] eqn:C'; run;
    [ | reflexivity ].
  destruct (rejects env' UserFindById); run; [ reflexivity | ].
  rewrite W. cbn [users exercises].
  destruct (find _ (users (db w))) as [user' | ] eqn:F; [ | reflexivity ].
  apply find_user_id in F.
  destruct (buildQuery env' user' from to) as [e | q] eqn:Q; run;
    [ reflexivity | ].
  destruct (parseInt limit) as [e | lim]; run; [ reflexivity | ].
  destruct (rejects env' ExerciseFind); run; [ reflexivity | ].
  rewrite filter_snoc_out; [ reflexivity | ].
  apply matches_other_user. cbn [ex_userId].
  rewrite (buildQuery_userId _ _ _ _ _ Q), U, F.
  intros ->. apply N. reflexivity.
Qed.

(** An exercise that was logged is in the log: after a successful Create
    Exercise, List Logs for the same id without parameters answers,
    whenever the database answers, with a log that holds the entry of the
    new exercise and counts one exercise more than before. *)
Theorem exercise_then_logged env env' _id description duration date
    w resp w' :
  app env (PostExercises _id description duration date) w = (resp, w') ->
  status resp = 200 ->
  castObjectId env' _id = castObjectId env _id ->
  rejects env' UserFindById = false ->
  rejects env' ExerciseFind = false ->
  let logs := GetLogs _id JUndefined JUndefined JUndefined in
  exists ex entries k,
    exercises (db w') = exercises (db w) ++ [ex]
    /\ status (fst (app env' logs w')) = 200
    /\ member "log" (body (fst (app env' logs w')))
       = Some (JsonArray entries)
    /\ In (logEntry env' ex) entries
    /\ member "count" (body (fst (app env' logs w)))
       = Some (JsonNumber k)
    /\ member "count" (body (fst (app env' logs w')))
       = Some (JsonNumber (k + 1)).
Proof.
  intros E S C R R'. cbv zeta.
  destruct (postExercises_success _ _ _ _ _ _ _ _ E S)
    as (user & s & dur & d & U & _ & _ & _ & _ & W & _).
  unfold userOf in U. rewrite <- C in U.
  destruct (castObjectId env' _id) as [oid | ] eqn:C'; [ | discriminate U ].
  set (ex := mkExercise (newId env) (user_id user) (trim s) dur d) in *.
  set (q := mkQuery (user_id user) None).
  assert (M : matches q ex = true).
  { unfold matches, q, ex. cbn. rewrite String.eqb_refl. reflexivity. }
  assert (F : filter (matches q) (exercises (db w) ++ [ex])
              = filter (matches q) (exercises (db w)) ++ [ex]).
  { rewrite filter_app. cbn [filter]. rewrite M. reflexivity. }
  exists ex, (map (logEntry env')
                (sortByDate (filter (matches q) (exercises (db w) ++ [ex])))),
    (Z.of_nat (List.length (filter (matches q) (exercises (db w))))).
  run. rewrite C'. run. rewrite R. run. rewrite W. cbn [users exercises].
  rewrite U. cbn [buildQuery ToBoolean orb parseInt ToString parseInt10].
  run. rewrite R'. run. fold q.
  change (parseInt10 "undefined") with (@None Z). cbn [limitArg applyLimit].
  cbn [fst status body member lookup String.eqb Ascii.eqb Bool.eqb].
  split; [ reflexivity | ]. split; [ reflexivity | ]. split; [ reflexivity | ].
  split.
  - apply in_map.
    apply (Permutation_in _ (Permutation_sym (sortByDate_perm _))).
    rewrite F. apply in_or_app. right. left. reflexivity.
  - rewrite !length_map, !(Permutation_length (sortByDate_perm _)), F.
    rewrite length_app. cbn [List.length].
    split; [ reflexivity | ]. do 2 f_equal. lia.
Qed.

Lemma exercise_then_logged_witness :
  member "count"
    (body (fst (app sampleEnv
                  (GetLogs "65536f0a0000000000000001" JUndefined JUndefined
                     JUndefined)
                  (snd (app sampleEnv
                          (PostExercises "65536f0a0000000000000001"
                             (JStr "row") (JStr "15") JUndefined)
                          sampleWorld)))))
  = Some (JsonNumber 4).
Proof.
  destruct (exercise_then_logged sampleEnv sampleEnv
              "65536f0a0000000000000001" (JStr "row") (JStr "15") JUndefined
              sampleWorld _ _ (surjective_pairing _) eq_refl eq_refl eq_refl
              eq_refl)
    as (ex & entries & k & _ & _ & _ & _ & B & A).
  inversion B; subst k. exact A.
Defined.

Lemma exercise_leaves_other_logs_witness :
  fst (app sampleEnv
         (GetLogs "65536f0a0000000000000005" JUndefined JUndefined JUndefined)
         (snd (app sampleEnv
                 (PostExercises "65536f0a0000000000000001" (JStr "row")
                    (JStr "15") JUndefined) sharedWorld)))
  = fst (app sampleEnv
           (GetLogs "65536f0a0000000000000005" JUndefined JUndefined
              JUndefined) sharedWorld).
Proof.
  apply (exercise_leaves_other_logs sampleEnv sampleEnv
           "65536f0a0000000000000001" "65536f0a0000000000000005"
           (JStr "row") (JStr "15") JUndefined JUndefined JUndefined
           JUndefined sharedWorld _ _ (surjective_pairing _) eq_refl).
  discriminate.
Defined.

(** ** The range of a log *)

Lemma matches_field_bounds env user (from to : option string) q e :
  buildQuery env user (field from) (field to) = inr q ->
  (matches q e = true
   <-> ex_userId e = user_id user
       /\ inBounds (validDate env from) (validDate env to) (ex_date e)).
Proof.
  rewrite buildQuery_field. intros Q. inversion Q; subst q. clear Q.
  unfold matches, inBounds, inRange. cbn [q_userId q_date].
  destruct (String.eqb_spec (ex_userId e) (user_id user)) as [U | U];
    cbn [andb].
  - destruct (validDate env from) as [a | ], (validDate env to) as [b | ];
      cbn [gte lte andb].
    + rewrite andb_true_iff, !Z.leb_le. split.
      * intros [A B]. split; [ exact U | ].
        split; intros x E; inversion E; subst x; assumption.
      * intros [_ [A B]]. split; [ apply A | apply B ]; reflexivity.
    + rewrite andb_true_r, Z.leb_le. split.
      * intros A. split; [ exact U | ].
        split; intros x E; inversion E; subst x; assumption.
      * intros [_ [A _]]. apply A. reflexivity.
    + cbn [andb]. rewrite Z.leb_le. split.
      * intros B. split; [ exact U | ].
        split; intros x E; inversion E; subst x; assumption.
      * intros [_ [_ B]]. apply B. reflexivity.
    + split; [ | reflexivity ].
      intros _. split; [ exact U | ]. split; intros x E; discriminate E.
  - split; [ discriminate | intros [E _]; contradiction ].
Qed.

(** The range of a log: for [from] and [to] that are absent or texts, a
    successful List Logs shows only exercises of the user dated within the
    valid bounds; without a limit it shows every such exercise; and when
    both bounds are valid and [from] is after [to] the log is empty and the
    count is 0. *)
Theorem logs_within_bounds env _id (from to : option string) limit
    w resp w' :
  app env (GetLogs _id (field from) (field to) limit) w = (resp, w') ->
  status resp = 200 ->
  exists user lim exs,
    userOf env (db w) _id = Some user
    /\ parseInt limit = inr lim
    /\ member "log" (body resp) = Some (JsonArray (map (logEntry env) exs))
    /\ (forall e, In e exs ->
          In e (exercises (db w))
          /\ ex_userId e = user_id user
          /\ inBounds (validDate env from) (validDate env to) (ex_date e))
    /\ (limitArg lim = None ->
        forall e, In e (exercises (db w)) ->
          ex_userId e = user_id user ->
          inBounds (validDate env from) (validDate env to) (ex_date e) ->
          In e exs)
    /\ (forall a b, validDate env from = Some a -> validDate env to = Some b ->
          b < a ->
          exs = [] /\ member "count" (body resp) = Some (JsonNumber 0)).
Proof.
  intros E S.
  destruct (getLogs_success _ _ _ _ _ _ _ _ E S)
    as (user & q & lim & U & Q & L & _ & R).
  cbv zeta in R.
  set (exs := applyLimit (limitArg lim)
                (sortByDate (filter (matches q) (exercises (db w))))) in *.
  assert (Sound : forall e, In e exs ->
            In e (exercises (db w))
            /\ ex_userId e = user_id user
            /\ inBounds (validDate env from) (validDate env to) (ex_date e)).
  { intros e I. unfold exs in I. apply In_applyLimit in I.
    apply (Permutation_in _ (sortByDate_perm _)), filter_In in I.
    destruct I as [I M]. split; [ exact I | ].
    apply (matches_field_bounds _ _ _ _ _ _ Q). exact M. }
  exists user, lim, exs. rewrite R.
  split; [ exact U | ]. split; [ exact L | ]. split; [ reflexivity | ].
  split; [ exact Sound | ]. split.
  - intros N e I Ue B. unfold exs. rewrite N. cbn [applyLimit].
    apply (Permutation_in _ (Permutation_sym (sortByDate_perm _))).
    apply filter_In. split; [ exact I | ].
    apply (matches_field_bounds _ _ _ _ _ _ Q). split; assumption.
  - intros a b Va Vb Lt.
    assert (Nil : exs = []).
    { destruct exs as [ | e r] eqn:X; [ reflexivity | exfalso ].
      destruct (Sound e (or_introl eq_refl)) as (_ & _ & [A B]).
      specialize (A a Va). specialize (B b Vb). lia. }
    split; [ exact Nil | ]. rewrite Nil. reflexivity.
Qed.

Lemma logs_within_bounds_witness :
  member "count"
    (body (fst (app sampleEnv
                  (GetLogs "65536f0a0000000000000001"
                     (field (Some "2023-01-17")) (field (Some "2023-01-15"))
                     JUndefined)
                  sampleWorld)))
  = Some (JsonNumber 0).
Proof.
  destruct (logs_within_bounds sampleEnv "65536f0a0000000000000001"
              (Some "2023-01-17") (Some "2023-01-15") JUndefined sampleWorld
              _ _ (surjective_pairing _) eq_refl)
    as (user & lim & exs & _ & _ & _ & _ & _ & Empty).
  destruct (Empty 1673913600000 1673740800000 eq_refl eq_refl ltac:(lia))
    as [_ C].
  exact C.
Defined.

(** Invalid parameters never fail a log: when the user exists and the
    database answers, List Logs answers with a 200 for every [from], [to]
    and [limit] that are absent or texts, whatever the texts are. *)
Theorem logs_always_answered env _id oid user (from to limit : option string)
    w :
  castObjectId env _id = Some oid ->
  rejects env UserFindById = false ->
  find (fun u => (user_id u =? oid)%string) (users (db w)) = Some user ->
  rejects env ExerciseFind = false ->
  status (fst (app env (GetLogs _id (field from) (field to) (field limit)) w))
  = 200
  /\ member "username"
       (body (fst (app env (GetLogs _id (field from) (field to) (field limit))
                     w)))
     = Some (JsonString (user_username user)).
Proof.
  intros C R F R'. run. rewrite C. run. rewrite R. run. rewrite F.
  rewrite buildQuery_field. run.
  destruct (parseInt_field limit) as [n ->]. run. rewrite R'.
  split; reflexivity.
Qed.

Lemma logs_always_answered_witness :
  status (fst (app sampleEnv
                 (GetLogs "65536f0a0000000000000001" (JStr "soon")
                    (JStr "later") (JStr "many")) sampleWorld))
  = 200.
Proof.
  apply (logs_always_answered sampleEnv "65536f0a0000000000000001"
           "65536f0a0000000000000001" sampleUser (Some "soon") (Some "later")
           (Some "many") sampleWorld eq_refl eq_refl eq_refl eq_refl).
Defined.

(** ** More on the fields of an exercise *)

(** For an existing user, a duration that converts to a text and a
    description that is missing, falsy or a text, Create Exercise answers
    with the 400 of an invalid input exactly when the description is
    missing, falsy or blank once trimmed, or the duration is [NaN]; the
    date plays no part, and the database is not asked to write. *)
Theorem exercise_invalid_fields env _id oid user description duration date
    n w :
  castObjectId env _id = Some oid ->
  rejects env UserFindById = false ->
  find (fun u => (user_id u =? oid)%string) (users (db w)) = Some user ->
  parseInt duration = inr n ->
  ToBoolean description = false \/ (exists s, description = JStr s) ->
  (app env (PostExercises _id description duration date) w
   = (res_status_json 400
        (errorBody
           "description and duration required (duration must be a number)"),
      mkWorld (db w) (UserFindById :: trace w))
   <-> (ToBoolean description = false
        \/ (exists s, description = JStr s /\ trim s = "")
        \/ n = None))
  /\ (status (fst (app env (PostExercises _id description duration date) w))
      = 400 ->
      snd (app env (PostExercises _id description duration date) w)
      = mkWorld (db w) (UserFindById :: trace w)).
Proof.
  intros C R F P D.
  run. rewrite C. run. rewrite R. run. rewrite F, P. run.
  destruct (ToBoolean description) eqn:T; cbn [negb]; run.
  - destruct D as [D | [s ->]]; [ discriminate D | ].
    cbn [call_trim ToBoolean].
    destruct (String.eqb_spec (trim s) "") as [B | B]; cbn [negb orb]; run.
    + split; [ | reflexivity ].
      split; [ intros _; right; left; eauto | reflexivity ].
    + cbn [call_trim]. destruct n as [n | ]; cbn [Number_isNaN]; run.
      * split.
        -- split.
           ++ split_run; intros E; inversion E.
           ++ intros [E | [(s' & E & B') | E]]; try discriminate E.
              inversion E; subst s'. contradiction.
        -- split_run; cbn [fst snd status]; intros E; discriminate E.
      * split; [ | reflexivity ].
        split; [ intros _; right; right; reflexivity | reflexivity ].
  - cbn [orb]. split; [ | reflexivity ].
    split; [ intros _; left; reflexivity | reflexivity ].
Qed.

Lemma exercise_invalid_fields_witness :
  fst (app sampleEnv
         (PostExercises "65536f0a0000000000000001" JUndefined (JNum 30)
            (JStr "2023-01-15")) sampleWorld)
  = res_status_json 400
      (errorBody
         "description and duration required (duration must be a number)").
Proof.
  destruct (exercise_invalid_fields sampleEnv "65536f0a0000000000000001"
              "65536f0a0000000000000001" sampleUser JUndefined (JNum 30)
              (JStr "2023-01-15") (Some 30) sampleWorld
              eq_refl eq_refl eq_refl eq_refl (or_introl eq_refl))
    as [[_ B] _].
  rewrite B; [ reflexivity | left; reflexivity ].
Defined.

(** A [date] that is falsy ([null], [false], [0], the empty text) is taken
    as no date at all: the request behaves exactly as the request without
    the field, although [new Date(null)] and [new Date(0)] are valid
    dates. *)
Theorem exercise_date_falsy env _id description duration date w :
  ToBoolean date = false ->
  app env (PostExercises _id description duration date) w
  = app env (PostExercises _id description duration JUndefined) w.
Proof.
  intros F. cbn [app]. unfold postExercises.
  rewrite (exerciseDate_falsy env date F).
  rewrite (exerciseDate_falsy env JUndefined eq_refl). reflexivity.
Qed.

Lemma exercise_date_falsy_witness :
  member "date"
    (body (fst (app sampleEnv
                  (PostExercises "65536f0a0000000000000001" (JStr "row")
                     (JNum 15) (JNum 0)) sampleWorld)))
  = Some (JsonString "Tue Nov 14 2023").
Proof.
  rewrite (exercise_date_falsy sampleEnv "65536f0a0000000000000001"
             (JStr "row") (JNum 15) (JNum 0) sampleWorld eq_refl).
  reflexivity.
Defined.

(** A [date] sent as a number other than 0 is taken as a time in
    milliseconds since the epoch: on success that time is stored, unless it
    lies more than 8.64e15 ms from the epoch, when the current date is
    stored instead. *)
Theorem exercise_date_number env _id description duration n w resp w' :
  n <> 0 ->
  app env (PostExercises _id description duration (JNum n)) w = (resp, w') ->
  status resp = 200 ->
  exists ex,
    exercises (db w') = exercises (db w) ++ [ex]
    /\ ex_date ex
       = (if Z.abs n <=? 8640000000000000 then n else now env)
    /\ member "date" (body resp)
       = Some (JsonString (toDateString env (Some (ex_date ex)))).
Proof.
  intros N E S.
  destruct (postExercises_success _ _ _ _ _ _ _ _ E S)
    as (user & s & dur & d & _ & _ & _ & _ & D & W & R).
  unfold exerciseDate in D. cbn [Date_new ToBoolean] in D.
  destruct (Z.eqb_spec n 0) as [Z0 | _]; [ contradiction | ].
  unfold TimeClip in D. cbn [negb orb] in D.
  eexists. rewrite W, R. split; [ reflexivity | ].
  cbn [ex_date]. split; [ | reflexivity ].
  destruct (Z.abs n <=? 8640000000000000); cbn in D; inversion D; reflexivity.
Qed.

Lemma exercise_date_number_witness :
  member "date"
    (body (fst (app sampleEnv
                  (PostExercises "65536f0a0000000000000001" (JStr "row")
                     (JNum 15) (JNum 86400000)) sampleWorld)))
  = Some (JsonString "Fri Jan 02 1970").
Proof.
  destruct (exercise_date_number sampleEnv "65536f0a0000000000000001"
              (JStr "row") (JNum 15) 86400000 sampleWorld _ _
              ltac:(discriminate) (surjective_pairing _) eq_refl)
    as (ex & _ & D & M).
  rewrite M, D. reflexivity.
Defined.

(** Create Exercise succeeds whenever it can: for an existing user, a
    description that is not blank, a duration that reads as a number, a
    date that is absent or a text, and a database that answers, exactly one
    exercise is appended, for that user, with the trimmed description, the
    number read and the date read or the current date; the response is the
    200 that shows them. *)
Theorem exercise_created env _id oid user s duration n (date : option string)
    w :
  castObjectId env _id = Some oid ->
  rejects env UserFindById = false ->
  find (fun u => (user_id u =? oid)%string) (users (db w)) = Some user ->
  trim s <> "" ->
  parseInt duration = inr (Some n) ->
  rejects env ExerciseCreate = false ->
  let d := match validDate env date with
           | Some t => t
           | None => now env
           end in
  app env (PostExercises _id (JStr s) duration (field date)) w
  = (res_json (JsonObject
       [("_id", JsonString (user_id user));
        ("username", JsonString (user_username user));
        ("description", JsonString (trim s));
        ("duration", JsonNumber n);
        ("date", JsonString (toDateString env (Some d)))]),
     mkWorld (mkStore (users (db w))
                (exercises (db w)
                   ++ [mkExercise (newId env) (user_id user) (trim s) n d]))
       (ExerciseCreate :: UserFindById :: trace w)).
Proof.
  intros C R F T P R' d.
  run. rewrite C. run. rewrite R. run. rewrite F, P. run.
  cbn [call_trim ToBoolean]. rewrite (trim_nonblank _ T). cbn [negb]. run.
  cbn [call_trim ToBoolean]. rewrite (eqb_false_of_neq _ T).
  cbn [negb orb Number_isNaN].
  rewrite exerciseDate_field. run. cbn [call_trim]. run.
  rewrite trim_trim, (eqb_false_of_neq _ T). run. rewrite R'. reflexivity.
Qed.

Lemma exercise_created_witness :
  exercises (db (snd (app sampleEnv
                        (PostExercises "65536f0a0000000000000001"
                           (JStr " row ") (JStr "15 min")
                           (field (Some "2024-02-29"))) sampleWorld)))
  = exercises sampleStore
    ++ [mkExercise "65536f0a0000000000000009" "65536f0a0000000000000001"
          "row" 15 1709164800000].
Proof.
  rewrite (exercise_created sampleEnv "65536f0a0000000000000001"
             "65536f0a0000000000000001" sampleUser " row " (JStr "15 min") 15
             (Some "2024-02-29") sampleWorld);
    try reflexivity.
  vm_compute. discriminate.
Defined.

(** ** Numbers and dates, there and back *)











Lemma DayFromYear_mono (y1 y2 : Z) :
  y1 <= y2 -> DayFromYear y1 <= DayFromYear y2.
Proof.
  unfold DayFromYear. intros H. Z.div_mod_to_equations. lia.
Qed.

Lemma YearFromDay_unique (y d : Z) :
  DayFromYear y <= d < DayFromYear (y + 1) -> YearFromDay d = y.
Proof.
  intros H. pose proof (YearFromDay_spec d) as S.
  destruct (Z.lt_trichotomy (YearFromDay d) y) as [L | [E | G]];
    [ | exact E | ]; exfalso.
  - pose proof (DayFromYear_mono (YearFromDay d + 1) y). lia.
  - pose proof (DayFromYear_mono (y + 1) (YearFromDay d)). lia.
Qed.

Lemma Day_within (day o : Z) :
  0 <= o < msPerDay -> Day (MakeDate day 0 + o) = day.
Proof.
  unfold Day, MakeDate, msPerDay. intros H. Z.div_mod_to_equations. lia.
Qed.

Ltac month_const :=
  repeat match goal with
         | |- context [monthStart ?a _] =>
             lazymatch a with
             | Z0 => fail
             | Zpos _ => fail
             | _ => let v := eval vm_compute in a in change a with v
             end
         | H : context [monthStart ?a _] |- _ =>
             lazymatch a with
             | Z0 => fail
             | Zpos _ => fail
             | _ => let v := eval vm_compute in a in change a with v in H
             end
         end;
  unfold monthStart in *.

(** The calendar reads back the date that [MakeDay] wrote: at any moment
    of the day [d] of month [m] of year [y], the year, the month and the
    day of the month are [y], [m] and [d]. *)
Lemma calendar_round_trip (y m d o : Z) :
  1 <= m <= 12 ->
  1 <= d <= DaysInMonth y (m - 1) ->
  0 <= o < msPerDay ->
  let t := MakeDate (MakeDay y (m - 1) d) 0 + o in
  YearFromTime t = y /\ MonthFromTime t = m - 1 /\ DateFromTime t = d.
Proof.
  intros Hm Hd Ho.
  set (l := if DaysInYear y =? 366 then 1 else 0).
  assert (Hl : DaysInYear y = 365 + l).
  { unfold l. destruct (DaysInYear_cases y) as [E | E]; rewrite E; reflexivity. }
  assert (Hl01 : l = 0 \/ l = 1).
  { unfold l. destruct (DaysInYear y =? 366); auto. }
  assert (M : m = 1 \/ m = 2 \/ m = 3 \/ m = 4 \/ m = 5 \/ m = 6 \/ m = 7
              \/ m = 8 \/ m = 9 \/ m = 10 \/ m = 11 \/ m = 12) by lia.
  assert (Hw : 0 <= monthStart (m - 1) l + d - 1 < 365 + l
               /\ monthStart (m - 1) l <= monthStart (m - 1) l + d - 1
                  < monthStart (m - 1 + 1) l).
  { unfold DaysInMonth in Hd. fold l in Hd. clear Hm.
    repeat (destruct M as [M | M]); subst m; month_const; lia. }
  intros t.
  assert (D : Day t = MakeDay y (m - 1) d) by (apply Day_within; exact Ho).
  assert (Y : YearFromTime t = y).
  { unfold YearFromTime. rewrite D. apply YearFromDay_unique.
    rewrite DayFromYear_succ, Hl. unfold MakeDay. fold l. lia. }
  assert (L : InLeapYear t = l).
  { unfold InLeapYear. rewrite Y. reflexivity. }
  assert (W : DayWithinYear t = monthStart (m - 1) l + d - 1).
  { unfold DayWithinYear. rewrite Y, D. unfold MakeDay. fold l. lia. }
  assert (Mo : MonthFromTime t = m - 1).
  { unfold MonthFromTime. rewrite W, L.
    destruct Hw as [_ Hw]. clear - Hw M Hl01.
    repeat (destruct M as [M | M]); subst m; month_const;
      repeat match goal with
             | |- context [?a <? ?b] => destruct (Z.ltb_spec a b); try lia
             end; reflexivity. }
  split; [ exact Y | ]. split; [ exact Mo | ].
  unfold DateFromTime. rewrite Mo, W, L. lia.
Qed.

Lemma parseDateOnly_fields (s : string) (t : Z) :
  parseDateOnly s = Some t ->
  exists y m d,
    digitsValue (firstn 4 (list_ascii_of_string s)) 0 = Some y
    /\ digitsValue (firstn 2 (skipn 5 (list_ascii_of_string s))) 0 = Some m
    /\ digitsValue (skipn 8 (list_ascii_of_string s)) 0 = Some d
    /\ 1 <= m <= 12
    /\ 1 <= d <= DaysInMonth y (m - 1)
    /\ t = MakeDate (MakeDay y (m - 1) d) 0.
Proof.
  unfold parseDateOnly.
  destruct (list_ascii_of_string s)
    as [ | y1 [ | y2 [ | y3 [ | y4 [ | s1 [ | m1 [ | m2 [ | s2 [ | d1
        [ | d2 [ | x r]]]]]]]]]]];
    try discriminate.
  cbn [firstn skipn].
  destruct (digitsValue [y1; y2; y3; y4] 0) as [y | ]; [ | discriminate ].
  destruct (digitsValue [m1; m2] 0) as [m | ]; [ | discriminate ].
  destruct (digitsValue [d1; d2] 0) as [d | ]; [ | discriminate ].
  destruct (Ascii.eqb s1 "-" && Ascii.eqb s2 "-" && (1 <=? m) && (m <=? 12)
            && (1 <=? d) && (d <=? DaysInMonth y (m - 1))) eqn:B;
    [ | discriminate ].
  intros E. inversion E; subst t. clear E.
  repeat (apply andb_prop in B; destruct B as [B ?]).
  exists y, m, d. repeat split; auto; lia.
Qed.

(** [toDateString] after [Date.parse], on a date-only text. *)
Lemma date_only_round_trip env s t :
  parseDateOnly s = Some t ->
  0 <= LocalTZA env t < msPerDay ->
  exists y m d,
    digitsValue (firstn 4 (list_ascii_of_string s)) 0 = Some y
    /\ digitsValue (firstn 2 (skipn 5 (list_ascii_of_string s))) 0 = Some m
    /\ digitsValue (skipn 8 (list_ascii_of_string s)) 0 = Some d
    /\ Date_parse env s = Some t
    /\ toDateString env (Some t)
       = (weekdayName (WeekDay (LocalTime env t)) ++ " "
            ++ monthName (m - 1) ++ " "
            ++ ToZeroPaddedDecimalString d 2 ++ " "
            ++ yearString y)%string.
Proof.
  intros P Z0.
  destruct (parseDateOnly_fields s t P) as (y & m & d & Py & Pm & Pd & Hm & Hd & E).
  exists y, m, d.
  split; [ exact Py | ]. split; [ exact Pm | ]. split; [ exact Pd | ].
  split.
  - unfold Date_parse. rewrite P.
    destruct s; [ discriminate P | reflexivity ].
  - destruct (calendar_round_trip y m d (LocalTZA env t) Hm Hd Z0)
      as (Y & Mo & Da).
    rewrite <- E in Y, Mo, Da.
    unfold toDateString, DateString, LocalTime.
    rewrite Y, Mo, Da. reflexivity.
Qed.

(** A date given as [YYYY-MM-DD] comes back as the same day: when Create
    Exercise succeeds with such a date and the local time zone is UTC or
    ahead of it by less than a day, the date of the response shows the
    month, the day of the month and the year that the text wrote. *)
Theorem exercise_date_round_trip env _id description duration s t w resp w' :
  parseDateOnly s = Some t ->
  0 <= LocalTZA env t < msPerDay ->
  app env (PostExercises _id description duration (JStr s)) w = (resp, w') ->
  status resp = 200 ->
  exists y m d,
    digitsValue (firstn 4 (list_ascii_of_string s)) 0 = Some y
    /\ digitsValue (firstn 2 (skipn 5 (list_ascii_of_string s))) 0 = Some m
    /\ digitsValue (skipn 8 (list_ascii_of_string s)) 0 = Some d
    /\ member "date" (body resp)
       = Some (JsonString
                 (weekdayName (WeekDay (LocalTime env t)) ++ " "
                    ++ monthName (m - 1) ++ " "
                    ++ ToZeroPaddedDecimalString d 2 ++ " "
                    ++ yearString y)%string).
Proof.
  intros P Z0 E S.
  destruct (date_only_round_trip env s t P Z0)
    as (y & m & d & Py & Pm & Pd & Dp & Ds).
  destruct (postExercises_success _ _ _ _ _ _ _ _ E S)
    as (user & s0 & dur & d0 & _ & _ & _ & _ & D & _ & R).
  change (JStr s) with (field (Some s)) in D.
  rewrite exerciseDate_field in D. cbn [validDate] in D.
  rewrite Dp in D. inversion D; subst d0.
  exists y, m, d.
  split; [ exact Py | ]. split; [ exact Pm | ]. split; [ exact Pd | ].
  rewrite R. cbn [body res_json]. rewrite member_date, Ds. reflexivity.
Qed.

Lemma exercise_date_round_trip_witness :
  member "date"
    (body (fst (app sampleEnv
                  (PostExercises "65536f0a0000000000000001" (JStr "row")
                     (JNum 15) (JStr "2024-02-29")) sampleWorld)))
  = Some (JsonString "Thu Feb 29 2024").
Proof.
  destruct (exercise_date_round_trip sampleEnv "65536f0a0000000000000001"
              (JStr "row") (JNum 15) "2024-02-29" 1709164800000 sampleWorld
              _ _ eq_refl ltac:(cbn; unfold msPerDay; lia)
              (surjective_pairing _) eq_refl)
    as (y & m & d & Py & Pm & Pd & M).
  rewrite M.
  vm_compute in Py, Pm, Pd. inversion Py; inversion Pm; inversion Pd.
  vm_compute. reflexivity.
Defined.
